(** * amp_autoshutdown: the idle-shutdown decider and the monitor cycle

    A shallow embedding of [src/amp_autoshutdown/monitor.py] (with the
    records of [config.py] it reads) and the properties of its idle
    detection, maintenance windows and shutdown trigger.

    Conventions of the embedding
    - Python [int] is [Z]; [Dict[str, int]] is [gmap string Z]; a set of
      strings is [gset string]; [str] is [string], i.e. the strings whose
      code points are below 256.
    - a naive [datetime] is the number of microseconds since the epoch, a
      [timedelta] is a number of microseconds; [datetime.time] is the record
      of its four fields.
    - the clock, the AMP API and the operating system are inputs of the
      functions that consult them; what a method does to the outside is
      recorded in a trace of events.
    - a method that can raise returns an [outcome]; the object it mutated
      before raising is returned next to it. *)

From Stdlib Require Import ZArith Bool List Ascii String Lia QArith.
From stdpp Require Import gmap strings list fin_maps.

Local Open Scope Z_scope.

(** ** Python values *)

Inductive exn : Type :=
| OverflowError
| ValueError
| AMPAPIError
| OSError
| SubprocessError
| OtherException.

Inductive outcome (A : Type) : Type :=
| Returned (a : A)
| Raised (e : exn).
Arguments Returned {A} a.
Arguments Raised {A} e.

(** Microseconds since the epoch, and microseconds of duration. *)
Definition datetime : Type := Z.
Definition timedelta : Type := Z.

Definition MAX_DELTA_DAYS : Z := 999999999.
Definition US_PER_MINUTE : Z := 60000000.

(** [timedelta(minutes=m)] for an integer [m]: the duration is normalised
    into days, seconds and microseconds, and a number of days of magnitude
    above 999999999 raises [OverflowError]. *)
Definition timedelta_minutes (m : Z) : outcome timedelta :=
  let d := m / 1440 in
  if MAX_DELTA_DAYS <? Z.abs d then Raised OverflowError
  else Returned (m * US_PER_MINUTE).

(** ** config.py: the records read by the monitor *)

Record MaintenanceWindow : Type := {
  days : list string;
  start : string;
  end_ : string
}.

Record Config : Type := {
  amp_base_url : string;
  api_key_alias : string;
  poll_interval_seconds : Z;
  idle_delay_minutes : Z;
  global_player_threshold : Z;
  per_instance_thresholds : gmap string Z;
  selected_instances : list string;
  maintenance_windows : list MaintenanceWindow;
  dry_run : bool;
  log_level : string;
  verify_ssl : bool
}.

(** ** monitor.py: ShutdownState and ShutdownDecider *)

Record ShutdownState : Type := {
  last_activity : datetime;
  shutdown_triggered : bool
}.

Record ShutdownDecider : Type := {
  state : ShutdownState;
  config : Config;
  idle_delta : timedelta
}.

Definition set_config (c : Config) (self : ShutdownDecider) : ShutdownDecider :=
  {| state := state self; config := c; idle_delta := idle_delta self |}.

Definition set_idle_delta (td : timedelta) (self : ShutdownDecider) : ShutdownDecider :=
  {| state := state self; config := config self; idle_delta := td |}.

Definition set_state (s : ShutdownState) (self : ShutdownDecider) : ShutdownDecider :=
  {| state := s; config := config self; idle_delta := idle_delta self |}.

(** [self.state.last_activity = t] *)
Definition set_last_activity (t : datetime) (self : ShutdownDecider) : ShutdownDecider :=
  set_state {| last_activity := t; shutdown_triggered := shutdown_triggered (state self) |} self.

(** [update_config]: [self.config] is assigned first, so it is replaced
    even when the [timedelta] constructor raises. *)
Definition update_config (c : Config) (self : ShutdownDecider)
  : outcome unit * ShutdownDecider :=
  let self1 := set_config c self in
  match timedelta_minutes (Z.max 1 (idle_delay_minutes c)) with
  | Returned td => (Returned tt, set_idle_delta td self1)
  | Raised e => (Raised e, self1)
  end.

(** [ShutdownDecider(config)] at clock reading [now]. *)
Definition new_ShutdownDecider (now : datetime) (c : Config) : outcome ShutdownDecider :=
  match timedelta_minutes (Z.max 1 (idle_delay_minutes c)) with
  | Returned td =>
      Returned {| state := {| last_activity := now; shutdown_triggered := false |};
                  config := c; idle_delta := td |}
  | Raised e => Raised e
  end.

(** [dict.get(instance_name, default)] *)
Definition _threshold_for (self : ShutdownDecider) (instance_name : string) : Z :=
  default (global_player_threshold (config self))
          (per_instance_thresholds (config self) !! instance_name).

(** The generator handed to [any] in [register_observation]. *)
Definition above_threshold (self : ShutdownDecider) (player_counts : gmap string Z) : bool :=
  existsb (fun item => _threshold_for self item.1 <? item.2)
          (map_to_list player_counts).

(** [register_observation], with [now] the value [datetime.utcnow()]
    returns. The result is the returned boolean and the decider after
    the call. *)
Definition register_observation (now : datetime) (player_counts : gmap string Z)
    (self : ShutdownDecider) : bool * ShutdownDecider :=
  if Nat.eqb (size player_counts) 0 then (false, self)
  else if above_threshold self player_counts then
    (false, set_state {| last_activity := now; shutdown_triggered := false |} self)
  else
    let idle_time := now - last_activity (state self) in
    if idle_delta self <=? idle_time then
      if negb (shutdown_triggered (state self)) then
        (true, set_state {| last_activity := last_activity (state self);
                            shutdown_triggered := true |} self)
      else (false, self)
    else (false, self).

(** ** datetime.time and the clock *)

Record time : Type := {
  hour : Z;
  minute : Z;
  second : Z;
  microsecond : Z
}.

(** Naive times compare as the tuples (hour, minute, second, microsecond). *)
Definition time_cmp (a b : time) : comparison :=
  match hour a ?= hour b with
  | Eq => match minute a ?= minute b with
          | Eq => match second a ?= second b with
                  | Eq => microsecond a ?= microsecond b
                  | c => c
                  end
          | c => c
          end
  | c => c
  end.

Definition time_le (a b : time) : bool :=
  match time_cmp a b with Gt => false | _ => true end.

Definition time_ge (a b : time) : bool :=
  match time_cmp a b with Lt => false | _ => true end.

Inductive weekday : Type := Mon | Tue | Wed | Thu | Fri | Sat | Sun.

(** What [datetime.now()] gives to [_in_maintenance_window]: the day of the
    week and the time of day. *)
Record localtime : Type := {
  wday : weekday;
  clock : time
}.

(** [strftime("%a")] in the C locale. *)
Definition strftime_a (d : weekday) : string :=
  match d with
  | Mon => "Mon" | Tue => "Tue" | Wed => "Wed" | Thu => "Thu"
  | Fri => "Fri" | Sat => "Sat" | Sun => "Sun"
  end.

Definition code (c : ascii) : Z := Z.of_N (N_of_ascii c).

Definition chr (n : Z) : ascii := ascii_of_N (Z.to_N n).

(** [str.lower] on code points below 256: the letters A-Z and the
    Latin-1 capitals (all of 0xC0-0xDE but the multiplication sign). *)
Definition lower_char (c : ascii) : ascii :=
  let n := code c in
  if ((65 <=? n) && (n <=? 90))
     || ((192 <=? n) && (n <=? 222) && negb (n =? 215))
  then chr (n + 32) else c.

Fixpoint lower (s : string) : string :=
  match s with
  | EmptyString => EmptyString
  | String c r => String (lower_char c) (lower r)
  end.

(** ** The regular expression behind [strptime(_, "%H:%M")]

    [_strptime] compiles the format into
    [(?P<H>2[0-3]|[0-1]\d|\d):(?P<M>[0-5]\d|\d)], takes the first match at
    the start of the string and raises [ValueError] when there is none or
    when it does not reach the end of the string. A matcher lists, in the
    order the backtracking engine tries them, the matched text with the
    text that remains. *)

Definition matcher : Type := string -> list (string * string).

Definition cls (P : ascii -> bool) : matcher :=
  fun s => match s with
           | String c r => if P c then [(String c EmptyString, r)] else []
           | EmptyString => []
           end.

Definition seq (p q : matcher) : matcher :=
  fun s => flat_map (fun m1 => List.map (fun m2 => (String.append m1.1 m2.1, m2.2)) (q m1.2)) (p s).

Definition alt (p q : matcher) : matcher :=
  fun s => p s ++ q s.

Definition in_range (lo hi : Z) (c : ascii) : bool :=
  (lo <=? code c) && (code c <=? hi).

(** [\d]: below code point 256 the decimal digits are 0-9. *)
Definition digit : matcher := cls (in_range 48 57).

Definition lit (c : ascii) : matcher := cls (Ascii.eqb c).

Definition re_H : matcher :=
  alt (seq (lit "2") (cls (in_range 48 51)))
      (alt (seq (cls (in_range 48 49)) digit) digit).

Definition re_M : matcher :=
  alt (seq (cls (in_range 48 53)) digit) digit.

(** [int] of a matched run of digits. *)
Fixpoint int_acc (acc : Z) (s : string) : Z :=
  match s with
  | EmptyString => acc
  | String c r => int_acc (10 * acc + (code c - 48)) r
  end.

Definition int (s : string) : Z := int_acc 0 s.

(** The matches of the whole pattern: the two groups and the rest. *)
Definition re_HM (s : string) : list (string * string * string) :=
  flat_map (fun h =>
    flat_map (fun c =>
      List.map (fun m => (h.1, m.1, m.2)) (re_M c.2))
      (lit ":" h.2))
    (re_H s).

(** [datetime.strptime(s, "%H:%M").time()]; [None] is [ValueError]. *)
Definition strptime_HM (s : string) : option time :=
  match re_HM s with
  | [] => None
  | (h, m, rest) :: _ =>
      match rest with
      | EmptyString =>
          Some {| hour := int h; minute := int m; second := 0; microsecond := 0 |}
      | _ => None
      end
  end.

(** ** monitor.py: maintenance windows *)

Definition _time_in_window (current : time) (start end_ : string) : bool :=
  match strptime_HM start with
  | None => false
  | Some start_time =>
      match strptime_HM end_ with
      | None => false
      | Some end_time =>
          if time_le start_time end_time
          then time_le start_time current && time_le current end_time
          else time_ge current start_time || time_le current end_time
      end
  end.

(** [{d.lower() for d in (window.days or ["*"])}] *)
Definition window_days (window : MaintenanceWindow) : gset string :=
  list_to_set (List.map lower (match days window with
                               | [] => ["*"%string]
                               | ds => ds
                               end)).

(** The [for] loop of [_in_maintenance_window]. *)
Fixpoint in_any_window (now_day : string) (now_time : time)
    (windows : list MaintenanceWindow) : bool :=
  match windows with
  | [] => false
  | window :: rest =>
      let ds := window_days window in
      if negb (bool_decide ("*"%string ∈ ds)) && negb (bool_decide (now_day ∈ ds))
      then in_any_window now_day now_time rest
      else if _time_in_window now_time (start window) (end_ window) then true
      else in_any_window now_day now_time rest
  end.

Definition _in_maintenance_window (now : localtime) (c : Config) : bool :=
  match maintenance_windows c with
  | [] => false
  | windows =>
      let now_day := lower (strftime_a (wday now)) in
      let now_time := clock now in
      in_any_window now_day now_time windows
  end.

Definition at_time (h m : Z) : time :=
  {| hour := h; minute := m; second := 0; microsecond := 0 |}.

(** ** monitor.py: Monitor *)

Record Monitor : Type := {
  decider : option ShutdownDecider;
  shutdown_initiated : bool
}.

(** What one cycle reads from outside: the two clocks, the answer of
    [AMPClient.get_player_counts] and the fate of [subprocess.run]. *)
Record world : Type := {
  w_now : localtime;
  w_utcnow : datetime;
  w_player_counts : outcome (gmap string Z);
  w_shutdown : outcome unit
}.

(** What a method does to the outside. *)
Inductive event : Type :=
| GetApiKey (alias : string)
| GetPlayerCounts (instances : list string)
| RegisterObservation (player_counts : gmap string Z)
| RunShutdownCommand.

(** The objects a method of [Monitor] works on: the monitor itself, the
    [stop_event] flag and the trace so far. *)
Record heap : Type := {
  self_ : Monitor;
  stop_event : bool;
  trace : list event
}.

Definition M (A : Type) : Type := heap -> outcome A * heap.

Definition ret {A} (a : A) : M A := fun h => (Returned a, h).

Definition raise {A} (e : exn) : M A := fun h => (Raised e, h).

Definition bind {A B} (m : M A) (k : A -> M B) : M B :=
  fun h => match m h with
           | (Returned a, h') => k a h'
           | (Raised e, h') => (Raised e, h')
           end.

Notation "x <- m ;; k" := (bind m (fun x => k))
  (at level 100, m at next level, right associativity).
Notation "m ;;; k" := (bind m (fun _ => k))
  (at level 100, right associativity).

Definition get_self : M Monitor := fun h => (Returned (self_ h), h).

Definition put_self (m : Monitor) : M unit :=
  fun h => (Returned tt, {| self_ := m; stop_event := stop_event h; trace := trace h |}).

Definition emit (e : event) : M unit :=
  fun h => (Returned tt,
            {| self_ := self_ h; stop_event := stop_event h; trace := trace h ++ [e] |}).

Definition stop_event_set : M unit :=
  fun h => (Returned tt, {| self_ := self_ h; stop_event := true; trace := trace h |}).

(** [try: m except (OSError, subprocess.SubprocessError): log] *)
Definition except_os_subprocess (m : M unit) : M unit :=
  fun h => match m h with
           | (Raised OSError, h') | (Raised SubprocessError, h') => (Returned tt, h')
           | r => r
           end.

(** [subprocess.run(SHUTDOWN_COMMAND, check=True)] *)
Definition subprocess_run_shutdown (w : world) : M unit :=
  emit RunShutdownCommand ;;;
  match w_shutdown w with
  | Returned _ => ret tt
  | Raised e => raise e
  end.

Definition _trigger_shutdown (w : world) (c : Config) : M unit :=
  self <- get_self ;;
  if shutdown_initiated self then ret tt
  else
    put_self {| decider := decider self; shutdown_initiated := true |} ;;;
    if dry_run c then ret tt
    else except_os_subprocess (subprocess_run_shutdown w).

(** [AMPClient(base_url=..., ...)]: the constructor raises [ValueError] on
    an empty base URL. *)
Definition new_AMPClient (c : Config) : M unit :=
  match amp_base_url c with
  | EmptyString => raise ValueError
  | _ => ret tt
  end.

(** [client.get_player_counts(instances)]: no request for an empty list;
    otherwise the request is made and answers as the world says. *)
Definition get_player_counts (w : world) (instances : list string) : M (gmap string Z) :=
  match instances with
  | [] => ret ∅
  | _ =>
      emit (GetPlayerCounts instances) ;;;
      match w_player_counts w with
      | Returned player_counts => ret player_counts
      | Raised e => raise e
      end
  end.

(** The rest of [_poll_once] once the counts are there:
    [if self.decider and self.decider.register_observation(player_counts)]. *)
Definition observe_and_act (w : world) (c : Config) (player_counts : gmap string Z) : M unit :=
  self <- get_self ;;
  match decider self with
  | None => ret tt
  | Some d =>
      emit (RegisterObservation player_counts) ;;;
      let r := register_observation (w_utcnow w) player_counts d in
      put_self {| decider := Some r.2; shutdown_initiated := shutdown_initiated self |} ;;;
      if r.1 then (_trigger_shutdown w c ;;; stop_event_set) else ret tt
  end.

Definition _poll_once (w : world) (c : Config) : M unit :=
  match selected_instances c with
  | [] => ret tt
  | _ =>
      if _in_maintenance_window (w_now w) c then
        self <- get_self ;;
        match decider self with
        | Some d =>
            put_self {| decider := Some (set_last_activity (w_utcnow w) d);
                        shutdown_initiated := shutdown_initiated self |}
        | None => ret tt
        end
      else
        emit (GetApiKey (api_key_alias c)) ;;;
        new_AMPClient c ;;;
        fun h =>
          match get_player_counts w (selected_instances c) h with
          | (Returned player_counts, h') => observe_and_act w c player_counts h'
          | (Raised AMPAPIError, h') => (Returned tt, h')
          | (Raised e, h') => (Raised e, h')
          end
  end.

(** A caller that invokes [_trigger_shutdown] over and over, each time with
    the configuration and the world of that moment, whether or not the
    previous call raised. *)
Definition trigger_calls (calls : list (world * Config)) (h : heap) : heap :=
  fold_left (fun h call => (_trigger_shutdown call.1 call.2 h).2) calls h.

Definition is_shutdown_command (e : event) : bool :=
  match e with RunShutdownCommand => true | _ => false end.

Definition shutdown_commands (tr : list event) : nat :=
  List.length (List.filter is_shutdown_command tr).

(** ** monitor.py: the loop of [Monitor.run] *)

(** What one pass of the loop reads from outside: what
    [config_manager.load()] and [configure_logging] do, the world of the
    cycle, and what [stop_event.wait(wait_seconds)] does: it returns, with
    the event set by another thread in the meantime or not, or it raises. *)
Record tick : Type := {
  t_load : outcome Config;
  t_logging : outcome unit;
  t_world : world;
  t_wait : outcome bool
}.

(** [if self.decider: self.decider.update_config(config)] *)
Definition reconfigure (config : Config) : M unit :=
  self <- get_self ;;
  match decider self with
  | None => ret tt
  | Some d =>
      put_self {| decider := Some (update_config config d).2;
                  shutdown_initiated := shutdown_initiated self |} ;;;
      match (update_config config d).1 with
      | Returned _ => ret tt
      | Raised e => raise e
      end
  end.

(** The [try] block of the loop with its [except Exception]: whatever is
    raised is logged and dropped. The result is the value of the variable
    [config] and the heap afterwards: [config] is assigned as soon as
    [load] returns. *)
Definition loop_body (t : tick) (config : Config) (h : heap) : Config * heap :=
  match t_load t with
  | Raised _ => (config, h)
  | Returned config' =>
      match t_logging t with
      | Raised _ => (config', h)
      | Returned _ =>
          (config', ((reconfigure config' ;;; _poll_once (t_world t) config') h).2)
      end
  end.

(** How the model of [run] ends: the loop saw the stop event, an exception
    left [run], or the ticks ran out with the loop still going. *)
Inductive run_end : Type :=
| Stopped
| Crashed (e : exn)
| StillRunning.

Definition set_stop_event (b : bool) (h : heap) : heap :=
  {| self_ := self_ h; stop_event := b; trace := trace h |}.

(** [while not stop_event.is_set(): ...], one tick per pass; [waits]
    collects the arguments of [stop_event.wait]. *)
Fixpoint run_loop (ticks : list tick) (config : Config) (h : heap) (waits : list Z)
  : run_end * heap * list Z :=
  if stop_event h then (Stopped, h, waits)
  else
    match ticks with
    | [] => (StillRunning, h, waits)
    | t :: rest =>
        let r := loop_body t config h in
        let wait_seconds := Z.max 5 (poll_interval_seconds r.1) in
        match t_wait t with
        | Raised e => (Crashed e, r.2, waits ++ [wait_seconds])
        | Returned set_meanwhile =>
            run_loop rest r.1
              (set_stop_event (stop_event r.2 || set_meanwhile) r.2)
              (waits ++ [wait_seconds])
        end
    end.

(** What [run] reads before the loop: the first [load], the first
    [configure_logging], the clock of the decider's constructor, and whether
    the stop event it was given is set already. *)
Record startup : Type := {
  s_load : outcome Config;
  s_logging : outcome unit;
  s_utcnow : datetime;
  s_stop : bool
}.

(** [Monitor.run(stop_event)] on a monitor [self]. *)
Definition run (s : startup) (ticks : list tick) (self : Monitor)
  : run_end * heap * list Z :=
  let h0 := {| self_ := self; stop_event := s_stop s; trace := [] |} in
  match s_load s with
  | Raised e => (Crashed e, h0, [])
  | Returned config =>
      match s_logging s with
      | Raised e => (Crashed e, h0, [])
      | Returned _ =>
          match new_ShutdownDecider (s_utcnow s) config with
          | Raised e => (Crashed e, h0, [])
          | Returned d =>
              run_loop ticks config
                {| self_ := {| decider := Some d;
                               shutdown_initiated := shutdown_initiated self |};
                   stop_event := s_stop s;
                   trace := [] |} []
          end
      end
  end.

(** ** Values of unknown type

    What [response.json()] and [tomllib.load] hand out: [None], booleans,
    integers, floats, strings, lists and dictionaries with string keys. A
    finite float is the rational it stands for; [VOther] is an object of
    any other type (the dates and times of TOML). The entries of a
    dictionary are in insertion order and their keys are distinct. *)

Inductive pyfloat : Type :=
| FNaN
| FInf (negative : bool)
| FFinite (q : Q).

#[warnings="-register-all"]
Inductive value : Type :=
| VNone
| VBool (b : bool)
| VInt (n : Z)
| VFloat (f : pyfloat)
| VStr (s : string)
| VList (items : list value)
| VDict (entries : list (string * value))
| VOther.

(** Exceptions the conversions raise, beside those of [exn]. *)
Inductive error : Type :=
| TypeError
| AttributeError
| Known (e : exn).

Inductive attempt (A : Type) : Type :=
| Got (a : A)
| Failed (e : error).
Arguments Got {A} a.
Arguments Failed {A} e.

(** [d.get(key)] on the entries of a dictionary. *)
Fixpoint dict_get (key : string) (entries : list (string * value)) : option value :=
  match entries with
  | [] => None
  | (k, v) :: rest => if String.eqb k key then Some v else dict_get key rest
  end.

(** [d.get(key, default)] *)
Definition dict_get_default (key : string) (default_ : value)
    (entries : list (string * value)) : value :=
  match dict_get key entries with
  | Some v => v
  | None => default_
  end.

(** [int(v)]. What [int] makes of a string is the parameter [int_of_str]
    ([None] for its [ValueError]); a float is truncated towards zero. *)
Definition py_int (int_of_str : string -> option Z) (v : value) : attempt Z :=
  match v with
  | VBool b => Got (if b then 1 else 0)
  | VInt n => Got n
  | VFloat FNaN => Failed (Known ValueError)
  | VFloat (FInf _) => Failed (Known OverflowError)
  | VFloat (FFinite q) => Got (Z.quot (Qnum q) (Z.pos (Qden q)))
  | VStr s =>
      match int_of_str s with
      | Some n => Got n
      | None => Failed (Known ValueError)
      end
  | VNone | VList _ | VDict _ | VOther => Failed TypeError
  end.

(** ** api_amp.py: AMPClient *)

Definition DEFAULT_TIMEOUT : Z := 10.
Definition INSTANCES_ENDPOINT : string := "/API/Core/GetInstances".
Definition PLAYER_COUNTS_ENDPOINT : string := "/API/Core/GetPlayerCounts".

Record AMPClient : Type := {
  base_url : string;
  api_key : string;
  client_verify_ssl : bool;
  client_timeout : Z
}.

(** [s.rstrip("/")] *)
Fixpoint rstrip_slash (s : string) : string :=
  match s with
  | EmptyString => EmptyString
  | String c r =>
      match rstrip_slash r with
      | EmptyString => if Ascii.eqb c "/" then EmptyString else String c EmptyString
      | r' => String c r'
      end
  end.

(** [AMPClient(base_url, api_key, verify_ssl)], with the default timeout;
    [None] for no API key. *)
Definition new_client (url : string) (key : option string) (verify : bool)
  : outcome AMPClient :=
  match url with
  | EmptyString => Raised ValueError
  | _ =>
      Returned {| base_url := rstrip_slash url;
                  api_key := match key with Some k => k | None => EmptyString end;
                  client_verify_ssl := verify;
                  client_timeout := DEFAULT_TIMEOUT |}
  end.

(** The [Authorization] header [_configure_session] sets, if any. *)
Definition authorization (self : AMPClient) : option string :=
  match api_key self with
  | EmptyString => None
  | k => Some (String.append "AMP " k)
  end.

(** A call of [session.request] and what comes back: a
    [requests.RequestException], or a response with its status, its text
    and what its [json()] does. *)
Record request : Type := {
  req_method : string;
  req_url : string;
  req_json : option value;
  req_timeout : Z;
  req_verify : bool
}.

Inductive reply : Type :=
| RequestException
| Response (status_code : Z) (text : string) (json : outcome value).

Definition _request (self : AMPClient) (session : request -> reply)
    (method path : string) (body : option value) : outcome (outcome value) :=
  let url := if String.prefix "http" path then path
             else String.append (base_url self) path in
  match session {| req_method := method; req_url := url; req_json := body;
                   req_timeout := client_timeout self;
                   req_verify := client_verify_ssl self |} with
  | RequestException => Raised AMPAPIError
  | Response status_code _ json =>
      if 400 <=? status_code then Raised AMPAPIError else Returned json
  end.

(** An item of [list_instances]: dictionaries pass, a string becomes
    [{"name": item, "id": item}], anything else is dropped. *)
Definition normalise_instance (item : value) : option value :=
  match item with
  | VDict _ => Some item
  | VStr s => Some (VDict [("name"%string, VStr s); ("id"%string, VStr s)])
  | _ => None
  end.

Definition list_instances (self : AMPClient) (session : request -> reply)
  : outcome (list value) :=
  match _request self session "GET" INSTANCES_ENDPOINT None with
  | Raised e => Raised e
  | Returned (Raised e) => Raised e
  | Returned (Returned payload) =>
      let instances :=
        match payload with
        | VDict entries => dict_get_default "instances" VNone entries
        | _ => payload
        end in
      match instances with
      | VList items => Returned (omap normalise_instance items)
      | _ => Raised AMPAPIError
      end
  end.

Definition test_connection (self : AMPClient) (session : request -> reply)
  : outcome bool :=
  match list_instances self session with
  | Returned _ => Returned true
  | Raised AMPAPIError => Returned false
  | Raised e => Raised e
  end.

(** The body of the loop of [get_player_counts] for one name: the count
    stored for it, or the exception that leaves the loop. *)
Definition player_count (int_of_str : string -> option Z)
    (data : list (string * value)) (name : string) : outcome Z :=
  let v := dict_get_default name VNone data in
  let v := match v with
           | VDict entries =>
               match dict_get "players" entries with
               | Some players => players
               | None => v
               end
           | _ => v
           end in
  match py_int int_of_str v with
  | Got n => Returned n
  | Failed TypeError | Failed (Known ValueError) => Returned 0
  | Failed AttributeError => Raised OtherException
  | Failed (Known e) => Raised e
  end.

Fixpoint fill_counts (int_of_str : string -> option Z)
    (data : list (string * value)) (names : list string) (results : gmap string Z)
  : outcome (gmap string Z) :=
  match names with
  | [] => Returned results
  | name :: rest =>
      match player_count int_of_str data name with
      | Returned n => fill_counts int_of_str data rest (<[name := n]> results)
      | Raised e => Raised e
      end
  end.

(** [AMPClient.get_player_counts(instances)] *)
Definition client_get_player_counts (int_of_str : string -> option Z)
    (self : AMPClient) (session : request -> reply) (instances : list string)
  : outcome (gmap string Z) :=
  match instances with
  | [] => Returned ∅
  | _ =>
      match _request self session "POST" PLAYER_COUNTS_ENDPOINT
              (Some (VDict [("instances"%string, VList (List.map VStr instances))])) with
      | Raised e => Raised e
      | Returned (Raised e) => Raised e
      | Returned (Returned (VDict data)) => fill_counts int_of_str data instances ∅
      | Returned (Returned _) => Raised AMPAPIError
      end
  end.

(** ** config.py: reading and writing the configuration *)

Definition MAINTENANCE_DAY_VALUES : gset string :=
  list_to_set ["mon"; "tue"; "wed"; "thu"; "fri"; "sat"; "sun"; "*"]%string.

(** What [for x in v] yields when [isinstance(v, Iterable)]: the characters
    of a string, the items of a list, the keys of a dictionary. *)
Definition py_iter (v : value) : option (list value) :=
  match v with
  | VStr s => Some (List.map (fun c => VStr (String c EmptyString)) (list_ascii_of_string s))
  | VList items => Some items
  | VDict entries => Some (List.map (fun kv => VStr kv.1) entries)
  | _ => None
  end.

(** [str(v)]: a string is itself; what the other values print as is the
    parameter [repr_]. *)
Definition py_str (repr_ : value -> string) (v : value) : string :=
  match v with
  | VStr s => s
  | _ => repr_ v
  end.

(** [bool(v)] *)
Definition py_bool (v : value) : bool :=
  match v with
  | VNone => false
  | VBool b => b
  | VInt n => negb (n =? 0)
  | VFloat (FFinite q) => negb (Qnum q =? 0)
  | VFloat _ => true
  | VStr s => negb (String.eqb s EmptyString)
  | VList items => match items with [] => false | _ => true end
  | VDict entries => match entries with [] => false | _ => true end
  | VOther => true
  end.

Definition is_valid_day (d : string) : bool :=
  bool_decide (d ∈ MAINTENANCE_DAY_VALUES).

(** [MaintenanceWindow.from_dict(data)] *)
Definition MaintenanceWindow_from_dict (repr_ : value -> string)
    (data : list (string * value)) : MaintenanceWindow :=
  let days := dict_get_default "days" (VList []) data in
  let days := match py_iter days with Some items => items | None => [] end in
  let normalised := List.map (fun day => lower (py_str repr_ day)) days in
  let valid := List.filter is_valid_day normalised in
  let valid := match valid with [] => ["*"%string] | _ => valid end in
  {| days := valid;
     start := py_str repr_ (dict_get_default "start" (VStr "00:00") data);
     end_ := py_str repr_ (dict_get_default "end" (VStr "06:00") data) |}.

(** [MaintenanceWindow.normalised_days()] *)
Definition normalised_days (self : MaintenanceWindow) : list string :=
  List.map lower (days self).

(** [MaintenanceWindow.to_dict()] *)
Definition MaintenanceWindow_to_dict (self : MaintenanceWindow) : list (string * value) :=
  [("days"%string, VList (List.map (fun d => VStr (lower d)) (days self)));
   ("start"%string, VStr (start self));
   ("end"%string, VStr (end_ self))].

(** A list comprehension whose element expression can raise: the first
    failure ends it. *)
Fixpoint attempt_all {A B : Type} (f : A -> attempt B) (l : list A) : attempt (list B) :=
  match l with
  | [] => Got []
  | x :: rest =>
      match f x with
      | Failed e => Failed e
      | Got y =>
          match attempt_all f rest with
          | Failed e => Failed e
          | Got ys => Got (y :: ys)
          end
      end
  end.

Definition and_then {A B : Type} (a : attempt A) (k : A -> attempt B) : attempt B :=
  match a with
  | Got x => k x
  | Failed e => Failed e
  end.

(** [{str(key): int(value) for key, value in d.items()}]: a later key
    replaces an earlier one. *)
Definition thresholds_of (int_of_str : string -> option Z) (v : value)
  : attempt (gmap string Z) :=
  match v with
  | VDict entries =>
      and_then
        (attempt_all (fun kv => and_then (py_int int_of_str kv.2)
                                  (fun n => Got (kv.1, n))) entries)
        (fun items => Got (fold_left (fun m kv => <[kv.1 := kv.2]> m) items ∅))
  | _ => Failed AttributeError
  end.

(** [[f(item) for item in v]], with the [TypeError] of iterating what is
    not iterable. *)
Definition iterate (v : value) : attempt (list value) :=
  match py_iter v with
  | Some items => Got items
  | None => Failed TypeError
  end.

Definition is_VDict (v : value) : option (list (string * value)) :=
  match v with
  | VDict entries => Some entries
  | _ => None
  end.

(** [Config.from_dict(data)]: the windows are read first, then the
    arguments of the constructor in their order. *)
Definition Config_from_dict (int_of_str : string -> option Z) (repr_ : value -> string)
    (data : list (string * value)) : attempt Config :=
  and_then (iterate (dict_get_default "maintenance_windows" (VList []) data))
    (fun entries =>
  let windows := List.map (MaintenanceWindow_from_dict repr_) (omap is_VDict entries) in
  let url := py_str repr_ (dict_get_default "amp_base_url" (VStr "") data) in
  let alias := py_str repr_ (dict_get_default "api_key_alias" (VStr "default") data) in
  and_then (py_int int_of_str (dict_get_default "poll_interval_seconds" (VInt 30) data))
    (fun poll =>
  and_then (py_int int_of_str (dict_get_default "idle_delay_minutes" (VInt 10) data))
    (fun idle =>
  and_then (py_int int_of_str (dict_get_default "global_player_threshold" (VInt 0) data))
    (fun glob =>
  and_then (thresholds_of int_of_str
              (dict_get_default "per_instance_thresholds" (VDict []) data))
    (fun per =>
  and_then (iterate (dict_get_default "selected_instances" (VList []) data))
    (fun selected =>
  Got {| amp_base_url := url;
         api_key_alias := alias;
         poll_interval_seconds := poll;
         idle_delay_minutes := idle;
         global_player_threshold := glob;
         per_instance_thresholds := per;
         selected_instances := List.map (py_str repr_) selected;
         maintenance_windows := windows;
         dry_run := py_bool (dict_get_default "dry_run" (VBool true) data);
         log_level := py_str repr_ (dict_get_default "log_level" (VStr "INFO") data);
         verify_ssl := py_bool (dict_get_default "verify_ssl" (VBool true) data) |})))))).

(** [Config.to_dict(include_api_meta)]; [keyring_present] says whether the
    import of [keyring] succeeded. The items of the thresholds come in the
    order of [map_to_list]. *)
Definition Config_to_dict (include_api_meta keyring_present : bool) (self : Config)
  : list (string * value) :=
  [("amp_base_url"%string, VStr (amp_base_url self));
   ("api_key_alias"%string, VStr (api_key_alias self));
   ("poll_interval_seconds"%string, VInt (poll_interval_seconds self));
   ("idle_delay_minutes"%string, VInt (idle_delay_minutes self));
   ("global_player_threshold"%string, VInt (global_player_threshold self));
   ("per_instance_thresholds"%string,
    VDict (List.map (fun kv => (kv.1, VInt kv.2))
             (map_to_list (per_instance_thresholds self))));
   ("selected_instances"%string, VList (List.map VStr (selected_instances self)));
   ("maintenance_windows"%string,
    VList (List.map (fun w => VDict (MaintenanceWindow_to_dict w))
             (maintenance_windows self)));
   ("dry_run"%string, VBool (dry_run self));
   ("log_level"%string, VStr (log_level self));
   ("verify_ssl"%string, VBool (verify_ssl self))]
  ++ (if include_api_meta then [("api_key_present"%string, VBool keyring_present)]
      else []).

(** [DEFAULT_CONFIG] *)
Definition DEFAULT_CONFIG : Config :=
  {| amp_base_url := "";
     api_key_alias := "default";
     poll_interval_seconds := 30;
     idle_delay_minutes := 10;
     global_player_threshold := 0;
     per_instance_thresholds := ∅;
     selected_instances := [];
     maintenance_windows :=
       [ {| days := ["sun"%string]; start := "01:00"; end_ := "05:00" |} ];
     dry_run := true;
     log_level := "INFO";
     verify_ssl := true |}.

(** ** Vocabulary of the statements *)

(** No observed count exceeds its effective threshold. *)
Definition all_idle (self : ShutdownDecider) (player_counts : gmap string Z) : Prop :=
  map_Forall (fun name count => count <= _threshold_for self name) player_counts.

(** Some observed count exceeds its effective threshold. *)
Definition some_active (self : ShutdownDecider) (player_counts : gmap string Z) : Prop :=
  exists name count,
    player_counts !! name = Some count /\ _threshold_for self name < count.

(** A run of observations, each at its own clock reading. *)
Fixpoint observe_all (obs : list (datetime * gmap string Z)) (self : ShutdownDecider)
  : list bool * ShutdownDecider :=
  match obs with
  | [] => ([], self)
  | o :: rest =>
      let r := register_observation o.1 o.2 self in
      let rs := observe_all rest r.2 in
      (r.1 :: rs.1, rs.2)
  end.

(** The largest [idle_delay_minutes] a [timedelta] can hold. *)
Definition MAX_DELTA_MINUTES : Z := 1439999999999.

(** The deciders a program can hold: made by the constructor, then
    reconfigured and shown observations in any order; the tests also
    assign [state.last_activity]. *)
Inductive built : ShutdownDecider -> Prop :=
| built_new now c d :
    new_ShutdownDecider now c = Returned d -> built d
| built_update c d :
    built d -> built (update_config c d).2
| built_observe now player_counts d :
    built d -> built (register_observation now player_counts d).2
| built_assign t d :
    built d ->
    built (set_last_activity t d).

(** A time of day within the ranges [datetime.time] enforces, and its
    position in the day in microseconds. *)
Definition valid_time (t : time) : Prop :=
  0 <= hour t < 24 /\ 0 <= minute t < 60
  /\ 0 <= second t < 60 /\ 0 <= microsecond t < 1000000.

Definition micros_of_day (t : time) : Z :=
  ((hour t * 60 + minute t) * 60 + second t) * 1000000 + microsecond t.

Definition time_eqb (a b : time) : bool :=
  (hour a =? hour b) && (minute a =? minute b)
  && (second a =? second b) && (microsecond a =? microsecond b).

(** ["%02d:%02d" % (h, m)] *)
Definition two_digits (n : Z) : string :=
  String (chr (48 + n / 10)) (String (chr (48 + n mod 10)) EmptyString).

Definition HH_MM (h m : Z) : string :=
  String.append (two_digits h) (String ":" (two_digits m)).

(** Every well-formed HH:MM string reads back as its time: the check
    over the 24 * 60 of them. *)
Definition reads_back (h m : Z) : bool :=
  match strptime_HM (HH_MM h m) with
  | Some t => time_eqb t {| hour := h; minute := m; second := 0; microsecond := 0 |}
  | None => false
  end.

(** The heap after a call of [_trigger_shutdown] that reached
    [subprocess.run]. *)
Definition after_command (h : heap) : heap :=
  {| self_ := {| decider := decider (self_ h); shutdown_initiated := true |};
     stop_event := stop_event h;
     trace := trace h ++ [RunShutdownCommand] |}.

(** The heap after a dry-run call of [_trigger_shutdown]. *)
Definition after_dry_run (h : heap) : heap :=
  {| self_ := {| decider := decider (self_ h); shutdown_initiated := true |};
     stop_event := stop_event h;
     trace := trace h |}.

(** What is left of an exception of [subprocess.run] after the [except]
    clause of [_trigger_shutdown]. *)
Definition caught (r : outcome unit) : outcome unit :=
  match r with
  | Returned _ | Raised OSError | Raised SubprocessError => Returned tt
  | Raised e => Raised e
  end.

(** ** Sample configurations, deciders and worlds *)

(** [Config()]: the defaults of the dataclass. *)
Definition Config_defaults : Config :=
  {| amp_base_url := "";
     api_key_alias := "default";
     poll_interval_seconds := 30;
     idle_delay_minutes := 10;
     global_player_threshold := 0;
     per_instance_thresholds := ∅;
     selected_instances := [];
     maintenance_windows := [];
     dry_run := true;
     log_level := "INFO";
     verify_ssl := true |}.

(** [make_config(idle_delay_minutes=.., global_player_threshold=..,
    per_instance_thresholds=..)] of the tests: the defaults with these
    fields overridden. *)
Definition make_config (idle glob : Z) (per : gmap string Z) : Config :=
  {| amp_base_url := amp_base_url Config_defaults;
     api_key_alias := api_key_alias Config_defaults;
     poll_interval_seconds := poll_interval_seconds Config_defaults;
     idle_delay_minutes := idle;
     global_player_threshold := glob;
     per_instance_thresholds := per;
     selected_instances := selected_instances Config_defaults;
     maintenance_windows := maintenance_windows Config_defaults;
     dry_run := dry_run Config_defaults;
     log_level := log_level Config_defaults;
     verify_ssl := verify_ssl Config_defaults |}.

(** The configuration [c] with its maintenance windows replaced. *)
Definition with_windows (windows : list MaintenanceWindow) (c : Config) : Config :=
  {| amp_base_url := amp_base_url c;
     api_key_alias := api_key_alias c;
     poll_interval_seconds := poll_interval_seconds c;
     idle_delay_minutes := idle_delay_minutes c;
     global_player_threshold := global_player_threshold c;
     per_instance_thresholds := per_instance_thresholds c;
     selected_instances := selected_instances c;
     maintenance_windows := windows;
     dry_run := dry_run c;
     log_level := log_level c;
     verify_ssl := verify_ssl c |}.

(** The configuration [c] with its selected instances replaced. *)
Definition with_instances (instances : list string) (c : Config) : Config :=
  {| amp_base_url := amp_base_url c;
     api_key_alias := api_key_alias c;
     poll_interval_seconds := poll_interval_seconds c;
     idle_delay_minutes := idle_delay_minutes c;
     global_player_threshold := global_player_threshold c;
     per_instance_thresholds := per_instance_thresholds c;
     selected_instances := instances;
     maintenance_windows := maintenance_windows c;
     dry_run := dry_run c;
     log_level := log_level c;
     verify_ssl := verify_ssl c |}.

(** A configuration that watches one instance of a local AMP, with the
    default ten minutes of delay, no window and the shutdown for real. *)
Definition live_config : Config :=
  {| amp_base_url := "http://localhost:8080";
     api_key_alias := "default";
     poll_interval_seconds := 30;
     idle_delay_minutes := 10;
     global_player_threshold := 0;
     per_instance_thresholds := ∅;
     selected_instances := ["survival"%string];
     maintenance_windows := [];
     dry_run := false;
     log_level := "INFO";
     verify_ssl := true |}.

(** A decider as the constructor leaves it, when the delay is in range. *)
Definition decider_at (now : datetime) (c : Config) : ShutdownDecider :=
  {| state := {| last_activity := now; shutdown_triggered := false |};
     config := c;
     idle_delta := Z.max 1 (idle_delay_minutes c) * US_PER_MINUTE |}.

(** A monitor that holds the decider [d] and has issued nothing yet. *)
Definition heap_of (d : ShutdownDecider) : heap :=
  {| self_ := {| decider := Some d; shutdown_initiated := false |};
     stop_event := false;
     trace := [] |}.

(** The window of the wrap-around test: every day, 22:00 to 02:00. *)
Definition night_window : MaintenanceWindow :=
  {| days := ["*"%string]; start := "22:00"; end_ := "02:00" |}.

(** A window that covers the whole day, every day. *)
Definition all_day_window : MaintenanceWindow :=
  {| days := ["*"%string]; start := "00:00"; end_ := "23:59" |}.

(** Monday noon, with the UTC clock at one second after [last_activity]
    zero, an API that reports nobody and a shutdown command that works. *)
Definition noon_world : world :=
  {| w_now := {| wday := Mon; clock := at_time 12 0 |};
     w_utcnow := 1000000;
     w_player_counts := Returned ∅;
     w_shutdown := Returned tt |}.

(** Monday noon, eleven minutes after [last_activity] zero, nobody on the
    watched instance. *)
Definition idle_world : world :=
  {| w_now := {| wday := Mon; clock := at_time 12 0 |};
     w_utcnow := 11 * US_PER_MINUTE;
     w_player_counts := Returned {[ "survival"%string := 0 ]};
     w_shutdown := Returned tt |}.

(** The heap [h] with the events [evs] added to its trace. *)
Definition with_events (evs : list event) (h : heap) : heap :=
  {| self_ := self_ h; stop_event := stop_event h; trace := trace h ++ evs |}.

(** The heap [h] with the decider of its monitor replaced. *)
Definition with_decider (d : ShutdownDecider) (h : heap) : heap :=
  {| self_ := {| decider := Some d; shutdown_initiated := shutdown_initiated (self_ h) |};
     stop_event := stop_event h;
     trace := trace h |}.

(** The two events every cycle that reaches the API starts with. *)
Definition fetch_events (c : Config) : list event :=
  [GetApiKey (api_key_alias c); GetPlayerCounts (selected_instances c)].

(** The cycle gets as far as asking the API. *)
Definition reaches_api (w : world) (c : Config) : Prop :=
  selected_instances c <> []
  /\ _in_maintenance_window (w_now w) c = false
  /\ amp_base_url c <> EmptyString.

(** The shutdown commands a monitor may still issue: one until its
    [shutdown_initiated] is set, none after. *)
Definition commands_left (h : heap) : nat :=
  if shutdown_initiated (self_ h) then 0%nat else 1%nat.

(** What a cycle adds to the trace: nothing that is a shutdown command, or
    events that end with the one shutdown command of a monitor that had
    not issued any. *)
Definition cycle_shape (w : world) (h h' : heap) : Prop :=
  exists evs,
    trace h' = trace h ++ evs
    /\ (shutdown_initiated (self_ h) = true -> shutdown_initiated (self_ h') = true)
    /\ (shutdown_commands evs = 0%nat
        \/ exists pre,
             evs = pre ++ [RunShutdownCommand]
             /\ shutdown_commands pre = 0%nat
             /\ shutdown_initiated (self_ h) = false
             /\ shutdown_initiated (self_ h') = true
             /\ (caught (w_shutdown w) = Returned tt -> stop_event h' = true)).

(** Whatever [subprocess.run] raises in this pass is caught by
    [_trigger_shutdown]. *)
Definition tick_ok (t : tick) : Prop :=
  caught (w_shutdown (t_world t)) = Returned tt.

(** [live_config] in dry-run mode. *)
Definition dry_config : Config :=
  {| amp_base_url := amp_base_url live_config;
     api_key_alias := api_key_alias live_config;
     poll_interval_seconds := poll_interval_seconds live_config;
     idle_delay_minutes := idle_delay_minutes live_config;
     global_player_threshold := global_player_threshold live_config;
     per_instance_thresholds := per_instance_thresholds live_config;
     selected_instances := selected_instances live_config;
     maintenance_windows := maintenance_windows live_config;
     dry_run := true;
     log_level := log_level live_config;
     verify_ssl := verify_ssl live_config |}.

(** [idle_world] with the API out of reach, and with a shutdown command
    the operating system refuses. *)
Definition down_world : world :=
  {| w_now := w_now idle_world;
     w_utcnow := w_utcnow idle_world;
     w_player_counts := Raised AMPAPIError;
     w_shutdown := w_shutdown idle_world |}.

Definition refusing_world : world :=
  {| w_now := w_now idle_world;
     w_utcnow := w_utcnow idle_world;
     w_player_counts := w_player_counts idle_world;
     w_shutdown := Raised OSError |}.

(** [Monitor()] *)
Definition new_Monitor : Monitor :=
  {| decider := None; shutdown_initiated := false |}.

(** A start at clock zero with [live_config], and a pass of the loop
    eleven minutes later that finds nobody online. *)
Definition live_startup : startup :=
  {| s_load := Returned live_config;
     s_logging := Returned tt;
     s_utcnow := 0;
     s_stop := false |}.

Definition idle_tick : tick :=
  {| t_load := Returned live_config;
     t_logging := Returned tt;
     t_world := idle_world;
     t_wait := Returned false |}.

(** A configuration whose idle delay no [timedelta] can hold. *)
Definition overflowing_config : Config :=
  {| amp_base_url := amp_base_url live_config;
     api_key_alias := api_key_alias live_config;
     poll_interval_seconds := poll_interval_seconds live_config;
     idle_delay_minutes := MAX_DELTA_MINUTES + 1;
     global_player_threshold := global_player_threshold live_config;
     per_instance_thresholds := per_instance_thresholds live_config;
     selected_instances := selected_instances live_config;
     maintenance_windows := maintenance_windows live_config;
     dry_run := dry_run live_config;
     log_level := log_level live_config;
     verify_ssl := verify_ssl live_config |}.

(** [k] slashes. *)
Fixpoint slashes (k : nat) : string :=
  match k with
  | O => EmptyString
  | S k' => String "/" (slashes k')
  end.

Definition ends_with_slash (s : string) : Prop :=
  exists p, s = String.append p "/".

Definition is_dict (v : value) : Prop := exists entries, v = VDict entries.

(** The request [get_player_counts] sends for [instances]. *)
Definition player_counts_request (self : AMPClient) (instances : list string) : request :=
  {| req_method := "POST";
     req_url := String.append (base_url self) PLAYER_COUNTS_ENDPOINT;
     req_json := Some (VDict [("instances"%string, VList (List.map VStr instances))]);
     req_timeout := client_timeout self;
     req_verify := client_verify_ssl self |}.

(** The request [list_instances] sends. *)
Definition instances_request (self : AMPClient) : request :=
  {| req_method := "GET";
     req_url := String.append (base_url self) INSTANCES_ENDPOINT;
     req_json := None;
     req_timeout := client_timeout self;
     req_verify := client_verify_ssl self |}.

(** The list of instances in a payload of [GetInstances], if it has one:
    the payload itself, or its entry [instances] when it is a dictionary. *)
Definition listed_instances (payload : value) : option (list value) :=
  match payload with
  | VList items => Some items
  | VDict entries =>
      match dict_get "instances" entries with
      | Some (VList items) => Some items
      | _ => None
      end
  | _ => None
  end.

(** A client of a local AMP, and a server that answers every request
    with the player counts of the test of the client. *)
Definition sample_client : AMPClient :=
  {| base_url := "https://example.com";
     api_key := "secret";
     client_verify_ssl := false;
     client_timeout := DEFAULT_TIMEOUT |}.

Definition sample_session (r : request) : reply :=
  Response 200 ""
    (Returned (VDict [("mc"%string, VDict [("players"%string, VInt 2)]);
                      ("satisfactory"%string, VInt 1)])).

(** A server that lists one instance by name and one in full. *)
Definition listing_session (r : request) : reply :=
  Response 200 ""
    (Returned (VList [VStr "mc";
                      VDict [("id"%string, VStr "satisfactory");
                             ("name"%string, VStr "Satisfactory")];
                      VInt 7])).

(** An [int] that accepts no string: enough where no count is text. *)
Definition no_text (s : string) : option Z := None.

(** A server that reports an infinite count. *)
Definition infinite_session (r : request) : reply :=
  Response 200 "" (Returned (VDict [("mc"%string, VFloat (FInf false))])).

(** A window as [MaintenanceWindow.from_dict] leaves it: at least one day,
    every day one of [MAINTENANCE_DAY_VALUES]. *)
Definition clean_window (w : MaintenanceWindow) : Prop :=
  days w <> [] /\ Forall (fun d => d ∈ MAINTENANCE_DAY_VALUES) (days w).

(** The days of a window as written in a file. *)
Definition written_days (data : list (string * value)) : list value :=
  match py_iter (dict_get_default "days" (VList []) data) with
  | Some items => items
  | None => []
  end.

(** A window of a configuration file whose only day is misspelt. *)
Definition monday_window : list (string * value) :=
  [("days"%string, VList [VStr "Monday"]);
   ("start"%string, VStr "01:00");
   ("end"%string, VStr "05:00")].

(** What prints a value that is not a string, in the samples. *)
Definition no_repr (v : value) : string := "?".

(** The pass reloads a configuration that selects no instance, if it
    reloads one at all. *)
Definition selects_nothing (t : tick) : Prop :=
  forall c, t_load t = Returned c -> selected_instances c = [].

(** What a heap holds of the idle tracking: the decider's state and the
    monitor's flag. *)
Definition tracking (h : heap) : option ShutdownState * bool :=
  (state <$> decider (self_ h), shutdown_initiated (self_ h)).

(** A pass that reloads [Config_defaults]. *)
Definition default_tick : tick :=
  {| t_load := Returned Config_defaults;
     t_logging := Returned tt;
     t_world := idle_world;
     t_wait := Returned false |}.

(** A server that answers with an empty dictionary. *)
Definition empty_session (r : request) : reply :=
  Response 200 "" (Returned (VDict [])).

(** ** ShutdownDecider: thresholds and the latch *)

Section decider.
Implicit Types (self d : ShutdownDecider) (player_counts : gmap string Z).
Implicit Types (now : datetime) (c : Config).

Lemma above_threshold_true self player_counts :
  above_threshold self player_counts = true <-> some_active self player_counts.
Proof.
  unfold above_threshold, some_active. rewrite existsb_exists. split.
  - intros [[name count] [Hin Hlt]]. exists name, count. split.
    + apply elem_of_map_to_list, list_elem_of_In, Hin.
    + apply Z.ltb_lt, Hlt.
  - intros (name & count & Hlook & Hlt). exists (name, count). split.
    + apply list_elem_of_In, elem_of_map_to_list, Hlook.
    + apply Z.ltb_lt, Hlt.
Qed.

Lemma above_threshold_false self player_counts :
  above_threshold self player_counts = false <-> all_idle self player_counts.
Proof.
  unfold all_idle. rewrite map_Forall_lookup. split.
  - intros Hf name count Hlook.
    destruct (Z.le_gt_cases count (_threshold_for self name)) as [|Hgt]; [done|].
    assert (above_threshold self player_counts = true) as Ht
      by (apply above_threshold_true; exists name, count; split; [done|lia]).
    congruence.
  - intros Hall. apply not_true_is_false. intros Ht.
    apply above_threshold_true in Ht as (name & count & Hlook & Hlt).
    specialize (Hall name count Hlook). simpl in Hall. lia.
Qed.

Lemma some_active_nonempty self player_counts :
  some_active self player_counts -> Nat.eqb (size player_counts) 0 = false.
Proof.
  intros (name & count & Hlook & _). apply Nat.eqb_neq. intros Hsz.
  apply map_size_empty_iff in Hsz. subst. by rewrite lookup_empty in Hlook.
Qed.

Lemma nonempty_size player_counts :
  player_counts <> ∅ -> Nat.eqb (size player_counts) 0 = false.
Proof.
  intros Hne. apply Nat.eqb_neq. intros Hsz. by apply map_size_empty_iff in Hsz.
Qed.

(** The thresholds depend on the configuration only. *)
Lemma all_idle_set_state s self player_counts :
  all_idle (set_state s self) player_counts <-> all_idle self player_counts.
Proof. reflexivity. Qed.

(** A latched decider answers every idle observation with [False] and
    stays as it is. *)
Lemma register_observation_latched now player_counts self :
  shutdown_triggered (state self) = true ->
  all_idle self player_counts ->
  register_observation now player_counts self = (false, self).
Proof.
  intros Hlatch Hidle. unfold register_observation.
  destruct (Nat.eqb (size player_counts) 0); [done|].
  apply above_threshold_false in Hidle. rewrite Hidle, Hlatch. simpl.
  by destruct (idle_delta self <=? now - last_activity (state self)).
Qed.

Lemma observe_all_latched obs self :
  shutdown_triggered (state self) = true ->
  Forall (fun o => all_idle self o.2) obs ->
  observe_all obs self = (List.map (fun _ => false) obs, self).
Proof.
  intros Hlatch. induction 1 as [|o rest Ho _ IH]; [done|].
  simpl. rewrite (register_observation_latched _ _ _ Hlatch Ho). simpl.
  by rewrite IH.
Qed.

(** The firing step, as an equation. *)
Lemma register_observation_fire now player_counts self :
  shutdown_triggered (state self) = false ->
  player_counts <> ∅ ->
  all_idle self player_counts ->
  idle_delta self <= now - last_activity (state self) ->
  register_observation now player_counts self =
    (true, set_state {| last_activity := last_activity (state self);
                        shutdown_triggered := true |} self).
Proof.
  intros Hlatch Hne Hidle Hdelay. unfold register_observation.
  rewrite (nonempty_size _ Hne).
  apply above_threshold_false in Hidle. rewrite Hidle.
  apply Z.leb_le in Hdelay. simpl. by rewrite Hdelay, Hlatch.
Qed.

(** The reset step, as an equation. *)
Lemma register_observation_reset now player_counts self :
  some_active self player_counts ->
  register_observation now player_counts self =
    (false, set_state {| last_activity := now; shutdown_triggered := false |} self).
Proof.
  intros Hact. unfold register_observation.
  rewrite (some_active_nonempty _ _ Hact).
  apply above_threshold_true in Hact. by rewrite Hact.
Qed.

(** Activity re-arms a latched decider: an idle observation a full delay
    after the activity fires again. *)
Lemma register_observation_rearms now1 now2 active idle self :
  some_active self active ->
  idle <> ∅ -> all_idle self idle ->
  idle_delta self <= now2 - now1 ->
  (register_observation now2 idle (register_observation now1 active self).2).1 = true.
Proof.
  intros Hact Hne Hidle Hdelay.
  rewrite (register_observation_reset _ _ _ Hact). simpl.
  by rewrite register_observation_fire.
Qed.

(** C1. A decider that is not latched, shown a non-empty observation with
    every count at or below its effective threshold once the idle time has
    reached the idle delay, returns [True] and latches; the next call on
    any observation with every count at or below its threshold, at any
    clock reading, returns [False] and changes nothing. *)
Theorem register_observation_fires_once now player_counts self :
  shutdown_triggered (state self) = false ->
  player_counts <> ∅ ->
  all_idle self player_counts ->
  idle_delta self <= now - last_activity (state self) ->
  let r := register_observation now player_counts self in
  r.1 = true
  /\ shutdown_triggered (state r.2) = true
  /\ last_activity (state r.2) = last_activity (state self)
  /\ config r.2 = config self
  /\ idle_delta r.2 = idle_delta self
  /\ forall now' player_counts',
       all_idle r.2 player_counts' ->
       register_observation now' player_counts' r.2 = (false, r.2).
Proof.
  intros Hlatch Hne Hidle Hdelay r. subst r.
  rewrite (register_observation_fire _ _ _ Hlatch Hne Hidle Hdelay). simpl.
  repeat split.
  intros now' player_counts' Hidle'.
  apply register_observation_latched; [reflexivity|exact Hidle'].
Qed.
Lemma register_observation_fires_once_witness :
  let d := decider_at 0 (make_config 1 0 ∅) in
  let r := register_observation 120000000 {[ "instance"%string := 0 ]} d in
  r.1 = true
  /\ shutdown_triggered (state r.2) = true
  /\ (register_observation 120000000 {[ "instance"%string := 0 ]} r.2).1 = false.
Proof.
  pose proof (register_observation_fires_once 120000000
                {[ "instance"%string := 0 ]} (decider_at 0 (make_config 1 0 ∅))) as H.
  destruct H as (H1 & H2 & _ & _ & _ & H6).
  - reflexivity.
  - apply map_non_empty_singleton.
  - apply map_Forall_singleton. vm_compute. discriminate.
  - vm_compute. discriminate.
  - cbv zeta. split; [exact H1|]. split; [exact H2|].
    rewrite H6; [reflexivity|].
    apply map_Forall_singleton. vm_compute. discriminate.
Defined.

(** C2. Whatever the decider's state, an observation with some count
    strictly above its effective threshold returns [False], moves
    [last_activity] to the clock reading and clears the latch. *)
Theorem register_observation_activity now player_counts self :
  (exists name count,
     player_counts !! name = Some count /\ count > _threshold_for self name) ->
  (register_observation now player_counts self).1 = false
  /\ last_activity (state (register_observation now player_counts self).2) = now
  /\ shutdown_triggered (state (register_observation now player_counts self).2) = false
  /\ register_observation now player_counts self =
       (false, set_state {| last_activity := now; shutdown_triggered := false |} self).
Proof.
  intros (name & count & Hlook & Hgt).
  assert (some_active self player_counts) as Hact
    by (exists name, count; split; [done|lia]).
  by rewrite (register_observation_reset _ _ _ Hact).
Qed.

Lemma register_observation_activity_witness :
  let d := set_state {| last_activity := 0; shutdown_triggered := true |}
             (decider_at 0 (make_config 5 0 ∅)) in
  register_observation 240000000 {[ "instance"%string := 1 ]} d =
    (false, set_state {| last_activity := 240000000; shutdown_triggered := false |} d).
Proof.
  cbv zeta.
  apply (register_observation_activity 240000000 {[ "instance"%string := 1 ]}).
  exists "instance"%string, 1. split; [apply lookup_singleton_eq|].
  vm_compute. reflexivity.
Defined.

(** C9. An empty observation returns [False] and leaves the decider,
    [last_activity] and the latch included, as it was. *)
Theorem register_observation_empty now self :
  register_observation now ∅ self = (false, self).
Proof. unfold register_observation. by rewrite map_size_empty. Qed.

(** C3. [update_config] keeps [state] (so [last_activity] and
    [shutdown_triggered]) as it was, whether it returns or raises; it
    installs the new configuration and, when it returns, the new delay. *)
Theorem update_config_frame c self :
  state (update_config c self).2 = state self
  /\ last_activity (state (update_config c self).2) = last_activity (state self)
  /\ shutdown_triggered (state (update_config c self).2) = shutdown_triggered (state self)
  /\ config (update_config c self).2 = c
  /\ match (update_config c self).1 with
     | Returned _ =>
         idle_delta (update_config c self).2 = Z.max 1 (idle_delay_minutes c) * US_PER_MINUTE
     | Raised _ => idle_delta (update_config c self).2 = idle_delta self
     end.
Proof.
  unfold update_config, timedelta_minutes.
  destruct (MAX_DELTA_DAYS <? Z.abs (Z.max 1 (idle_delay_minutes c) / 1440)); simpl; auto.
Qed.
End decider.

(** ** The effective threshold *)

Section thresholds.
Implicit Types (self : ShutdownDecider) (now : datetime) (name : string).

Lemma threshold_for_override self name t :
  per_instance_thresholds (config self) !! name = Some t ->
  _threshold_for self name = t.
Proof. unfold _threshold_for. by intros ->. Qed.

Lemma threshold_for_fallback self name :
  per_instance_thresholds (config self) !! name = None ->
  _threshold_for self name = global_player_threshold (config self).
Proof. unfold _threshold_for. by intros ->. Qed.

Lemma above_threshold_singleton self name count :
  above_threshold self {[ name := count ]} = (_threshold_for self name <? count).
Proof.
  unfold above_threshold. rewrite map_to_list_singleton. simpl.
  apply orb_false_r.
Qed.

Lemma register_observation_at_threshold now self name :
  last_activity (state (register_observation now {[ name := _threshold_for self name ]} self).2)
  = last_activity (state self).
Proof.
  unfold register_observation. rewrite map_size_singleton. simpl.
  rewrite above_threshold_singleton, Z.ltb_irrefl.
  destruct (idle_delta self <=? now - last_activity (state self)); [|done].
  by destruct (shutdown_triggered (state self)).
Qed.

(** C8. The effective threshold of an instance is its entry of
    [per_instance_thresholds] when there is one and
    [global_player_threshold] otherwise; an observation counts as activity
    exactly when some count is strictly greater than its effective
    threshold, so a count equal to the threshold neither is above it nor
    moves [last_activity]; and with global 5 and per-instance mc = 0 the
    observation mc = 1 is above threshold and resets the idle clock. *)
Theorem threshold_for_strict :
  (forall self name,
     _threshold_for self name =
       match per_instance_thresholds (config self) !! name with
       | Some t => t
       | None => global_player_threshold (config self)
       end)
  /\ (forall self player_counts,
        above_threshold self player_counts = true <->
        exists name count,
          player_counts !! name = Some count /\ count > _threshold_for self name)
  /\ (forall self now player_counts,
        (above_threshold self player_counts = true ->
         register_observation now player_counts self =
           (false, set_state {| last_activity := now;
                                shutdown_triggered := false |} self))
        /\ (above_threshold self player_counts = false ->
            last_activity (state (register_observation now player_counts self).2)
            = last_activity (state self)))
  /\ (forall self now name,
        above_threshold self {[ name := _threshold_for self name ]} = false
        /\ last_activity
             (state (register_observation now {[ name := _threshold_for self name ]} self).2)
           = last_activity (state self))
  /\ (forall now t,
        let self := decider_at t (make_config 10 5 {[ "mc"%string := 0 ]}) in
        _threshold_for self "mc" = 0
        /\ above_threshold self {[ "mc"%string := 1 ]} = true
        /\ register_observation now {[ "mc"%string := 1 ]} self =
             (false, set_state {| last_activity := now;
                                  shutdown_triggered := false |} self)).
Proof.
  split; [|split; [|split; [|split]]].
  - intros self name. unfold _threshold_for.
    by destruct (per_instance_thresholds (config self) !! name).
  - intros self player_counts. rewrite above_threshold_true. unfold some_active.
    split; intros (name & count & Hlook & Hlt); exists name, count; split; auto; lia.
  - intros self now player_counts. split; intros Hab.
    + apply register_observation_reset, above_threshold_true, Hab.
    + unfold register_observation. rewrite Hab.
      destruct (Nat.eqb (size player_counts) 0); [done|].
      by destruct (idle_delta self <=? now - last_activity (state self)),
                  (shutdown_triggered (state self)).
  - intros self now name. split.
    + rewrite above_threshold_singleton. apply Z.ltb_irrefl.
    + apply register_observation_at_threshold.
  - intros now t self. split; [|split].
    + reflexivity.
    + rewrite above_threshold_singleton. reflexivity.
    + apply register_observation_reset.
      exists "mc"%string, 1. split; [apply lookup_singleton_eq|reflexivity].
Qed.
End thresholds.

(** ** The idle delay *)

Section idle_delay.
Implicit Types (self d : ShutdownDecider) (now : datetime) (c : Config).

Lemma timedelta_minutes_in_range m :
  1 <= m <= MAX_DELTA_MINUTES ->
  timedelta_minutes m = Returned (m * US_PER_MINUTE).
Proof.
  unfold MAX_DELTA_MINUTES. intros [Hlo Hhi]. unfold timedelta_minutes, MAX_DELTA_DAYS.
  assert (0 <= m / 1440 < 1000000000) as [H0 H1].
  { split; [apply Z.div_pos; lia|].
    apply Z.div_lt_upper_bound; lia. }
  rewrite Z.abs_eq by exact H0.
  destruct (999999999 <? m / 1440) eqn:E; [|done].
  apply Z.ltb_lt in E. lia.
Qed.

Lemma timedelta_minutes_overflow m :
  MAX_DELTA_MINUTES < m ->
  timedelta_minutes m = Raised OverflowError.
Proof.
  unfold MAX_DELTA_MINUTES. intros Hm. unfold timedelta_minutes, MAX_DELTA_DAYS.
  assert (1000000000 <= m / 1440) as H0 by (apply Z.div_le_lower_bound; lia).
  rewrite Z.abs_eq by lia.
  destruct (999999999 <? m / 1440) eqn:E; [done|].
  apply Z.ltb_ge in E. lia.
Qed.

(** Whatever [timedelta_minutes] returns for a delay clamped at 1 is at
    least one minute. *)
Lemma timedelta_minutes_clamped m td :
  timedelta_minutes (Z.max 1 m) = Returned td -> US_PER_MINUTE <= td.
Proof.
  unfold timedelta_minutes.
  destruct (MAX_DELTA_DAYS <? Z.abs (Z.max 1 m / 1440)); [done|].
  intros [= <-]. unfold US_PER_MINUTE. lia.
Qed.

Lemma update_config_in_range c self :
  idle_delay_minutes c <= MAX_DELTA_MINUTES ->
  update_config c self =
    (Returned tt,
     set_idle_delta (Z.max 1 (idle_delay_minutes c) * US_PER_MINUTE) (set_config c self)).
Proof.
  intros Hm. unfold update_config.
  rewrite timedelta_minutes_in_range; [done|]. unfold MAX_DELTA_MINUTES in *. lia.
Qed.

Lemma update_config_overflow c self :
  MAX_DELTA_MINUTES < idle_delay_minutes c ->
  update_config c self = (Raised OverflowError, set_config c self).
Proof.
  intros Hm. unfold update_config.
  rewrite timedelta_minutes_overflow; [done|]. unfold MAX_DELTA_MINUTES in *. lia.
Qed.

(** The constructor, for a delay in range. *)
Lemma new_ShutdownDecider_in_range now c :
  idle_delay_minutes c <= MAX_DELTA_MINUTES ->
  new_ShutdownDecider now c = Returned (decider_at now c).
Proof.
  intros Hm. unfold new_ShutdownDecider.
  rewrite timedelta_minutes_in_range; [done|]. unfold MAX_DELTA_MINUTES in *. lia.
Qed.

Lemma new_ShutdownDecider_overflow now c :
  MAX_DELTA_MINUTES < idle_delay_minutes c ->
  new_ShutdownDecider now c = Raised OverflowError.
Proof.
  intros Hm. unfold new_ShutdownDecider.
  rewrite timedelta_minutes_overflow; [done|]. unfold MAX_DELTA_MINUTES in *. lia.
Qed.

(** A [True] from [register_observation] means the idle time has reached
    the decider's delay. *)
Lemma register_observation_true_idle now player_counts self :
  (register_observation now player_counts self).1 = true ->
  idle_delta self <= now - last_activity (state self).
Proof.
  unfold register_observation.
  destruct (Nat.eqb (size player_counts) 0); [done|].
  destruct (above_threshold self player_counts); [done|].
  destruct (idle_delta self <=? now - last_activity (state self)) eqn:E; [|done].
  intros _. by apply Z.leb_le.
Qed.

Lemma register_observation_idle_delta now player_counts self :
  idle_delta (register_observation now player_counts self).2 = idle_delta self.
Proof.
  unfold register_observation.
  destruct (Nat.eqb (size player_counts) 0); [done|].
  destruct (above_threshold self player_counts); [done|].
  by destruct (idle_delta self <=? now - last_activity (state self)),
              (shutdown_triggered (state self)).
Qed.

(** Every decider a program can hold waits at least one minute: an
    out-of-range delay raises and keeps the previous one. *)
Lemma built_idle_delta d : built d -> US_PER_MINUTE <= idle_delta d.
Proof.
  induction 1 as [now c d Hnew|c d _ IH|now pc d _ IH|t d _ IH].
  - unfold new_ShutdownDecider in Hnew.
    destruct (timedelta_minutes (Z.max 1 (idle_delay_minutes c))) as [td|] eqn:E; [|done].
    injection Hnew as <-. simpl. by eapply timedelta_minutes_clamped.
  - unfold update_config.
    destruct (timedelta_minutes (Z.max 1 (idle_delay_minutes c))) as [td|] eqn:E; simpl.
    + by eapply timedelta_minutes_clamped.
    + exact IH.
  - by rewrite register_observation_idle_delta.
  - exact IH.
Qed.

Lemma built_never_armed_early now player_counts d :
  built d ->
  (register_observation now player_counts d).1 = true ->
  US_PER_MINUTE <= now - last_activity (state d).
Proof.
  intros Hb Ht. apply built_idle_delta in Hb.
  apply register_observation_true_idle in Ht. lia.
Qed.

(** C10, as the code has it. For a configuration whose
    [idle_delay_minutes] is at most 1439999999999, zero and negative values
    included, [update_config] returns and sets the idle delay to
    [max(1, idle_delay_minutes)] minutes, which is at least one minute, so
    [register_observation] then returns [True] only once the idle time has
    reached one minute. *)
Theorem update_config_idle_delay c self :
  idle_delay_minutes c <= MAX_DELTA_MINUTES ->
  (update_config c self).1 = Returned tt
  /\ idle_delta (update_config c self).2 = Z.max 1 (idle_delay_minutes c) * US_PER_MINUTE
  /\ US_PER_MINUTE <= idle_delta (update_config c self).2
  /\ forall now player_counts,
       (register_observation now player_counts (update_config c self).2).1 = true ->
       US_PER_MINUTE <= now - last_activity (state self).
Proof.
  intros Hm. rewrite (update_config_in_range _ _ Hm). simpl.
  assert (US_PER_MINUTE <= Z.max 1 (idle_delay_minutes c) * US_PER_MINUTE) as Hmin
    by (unfold US_PER_MINUTE; lia).
  repeat split; [exact Hmin|].
  intros now player_counts Ht.
  apply register_observation_true_idle in Ht. simpl in Ht. lia.
Qed.

Lemma update_config_idle_delay_witness :
  let d := decider_at 0 (make_config 10 0 ∅) in
  let c := make_config (-3) 0 ∅ in
  (update_config c d).1 = Returned tt
  /\ idle_delta (update_config c d).2 = 60000000.
Proof.
  cbv zeta.
  destruct (update_config_idle_delay (make_config (-3) 0 ∅)
              (decider_at 0 (make_config 10 0 ∅))) as (H1 & H2 & _).
  - vm_compute. discriminate.
  - split; [exact H1|]. rewrite H2. reflexivity.
Defined.

(** C10 as stated fails for a delay no [timedelta] can hold:
    [update_config] raises [OverflowError] after replacing the
    configuration, and the delay stays the previous one (here 10
    minutes), which is not [max(1, idle_delay_minutes)] minutes. *)
Lemma update_config_idle_delay_overflow :
  let d := decider_at 0 (make_config 10 0 ∅) in
  let c := make_config 1440000000000 0 ∅ in
  update_config c d = (Raised OverflowError, set_config c d)
  /\ idle_delta (update_config c d).2 = 10 * US_PER_MINUTE
  /\ idle_delta (update_config c d).2 <> Z.max 1 (idle_delay_minutes c) * US_PER_MINUTE.
Proof.
  cbv zeta. split; [reflexivity|]. split; [reflexivity|].
  vm_compute. discriminate.
Qed.
End idle_delay.

(** ** Times of day *)

Section times.
Implicit Types (a b t current : time).

Lemma time_cmp_opp a b : time_cmp b a = CompOpp (time_cmp a b).
Proof.
  unfold time_cmp.
  rewrite (Z.compare_antisym (hour a)), (Z.compare_antisym (minute a)),
          (Z.compare_antisym (second a)), (Z.compare_antisym (microsecond a)).
  destruct (hour a ?= hour b); simpl; [|done|done].
  destruct (minute a ?= minute b); simpl; [|done|done].
  by destruct (second a ?= second b).
Qed.

(** [current >= start_time] is [start_time <= current]. *)
Lemma time_ge_le a b : time_ge a b = time_le b a.
Proof.
  unfold time_ge, time_le. rewrite (time_cmp_opp a b).
  by destruct (time_cmp a b).
Qed.

Lemma time_le_refl a : time_le a a = true.
Proof. unfold time_le, time_cmp. by rewrite !Z.compare_refl. Qed.

Lemma time_le_total a b : time_le a b = true \/ time_le b a = true.
Proof.
  unfold time_le. rewrite (time_cmp_opp a b).
  destruct (time_cmp a b); simpl; auto.
Qed.

(** On valid times the tuple order is the order of the instants of the
    day. *)
Lemma time_le_micros a b :
  valid_time a -> valid_time b ->
  time_le a b = true <-> micros_of_day a <= micros_of_day b.
Proof.
  unfold valid_time, micros_of_day, time_le, time_cmp.
  intros (Hh & Hm & Hs & Hu) (Hh' & Hm' & Hs' & Hu').
  destruct (Z.compare_spec (hour a) (hour b)) as [Eh|Lh|Gh];
    [destruct (Z.compare_spec (minute a) (minute b)) as [Em|Lm|Gm];
     [destruct (Z.compare_spec (second a) (second b)) as [Es|Ls|Gs];
      [destruct (Z.compare_spec (microsecond a) (microsecond b))|..]|..]|..];
    split; intros Hle; try done; try lia.
Qed.
End times.

(** ** Reading HH:MM *)

Section strptime.
Implicit Types (s r m h : string) (p q : matcher) (c : ascii).

Lemma cls_In P s m r :
  In (m, r) (cls P s) <-> exists c, s = String c r /\ P c = true /\ m = String c EmptyString.
Proof.
  unfold cls. destruct s as [|c s']; simpl.
  - split; [done|]. by intros (c & ? & _).
  - destruct (P c) eqn:E; simpl.
    + split.
      * intros [[= <- <-]|[]]. by exists c.
      * intros (c' & [= <- <-] & _ & ->). by left.
    + split; [done|]. intros (c' & [= <- <-] & HP & _). congruence.
Qed.

Lemma seq_In p q s m r :
  In (m, r) (seq p q s) <->
  exists m1 r1 m2, In (m1, r1) (p s) /\ In (m2, r) (q r1) /\ m = String.append m1 m2.
Proof.
  unfold seq. rewrite in_flat_map. split.
  - intros ([m1 r1] & Hp & Hq). apply in_map_iff in Hq as ([m2 r2] & [= <- <-] & Hq).
    by exists m1, r1, m2.
  - intros (m1 & r1 & m2 & Hp & Hq & ->). exists (m1, r1). split; [done|].
    apply in_map_iff. by exists (m2, r).
Qed.

Lemma alt_In p q s x : In x (alt p q s) <-> In x (p s) \/ In x (q s).
Proof. unfold alt. apply in_app_iff. Qed.

Lemma in_range_bounds lo hi c : in_range lo hi c = true -> lo <= code c <= hi.
Proof. unfold in_range. rewrite andb_true_iff, !Z.leb_le. tauto. Qed.

Lemma int_one c : int (String c EmptyString) = code c - 48.
Proof. unfold int. simpl. lia. Qed.

Lemma int_two c c' :
  int (String c (String c' EmptyString)) = 10 * (code c - 48) + (code c' - 48).
Proof. unfold int. simpl. lia. Qed.

Lemma append_one c s : String.append (String c EmptyString) s = String c s.
Proof. reflexivity. Qed.

Lemma re_H_range s h r : In (h, r) (re_H s) -> 0 <= int h < 24.
Proof.
  unfold re_H, digit, lit. rewrite !alt_In, !seq_In.
  intros [(m1 & r1 & m2 & H1 & H2 & ->)|[(m1 & r1 & m2 & H1 & H2 & ->)|H1]].
  - apply cls_In in H1 as (c & _ & Hc & ->), H2 as (c' & _ & Hc' & ->).
    apply Ascii.eqb_eq in Hc as <-. apply in_range_bounds in Hc'.
    rewrite append_one, int_two. change (code "2") with 50. lia.
  - apply cls_In in H1 as (c & _ & Hc & ->), H2 as (c' & _ & Hc' & ->).
    apply in_range_bounds in Hc, Hc'. rewrite append_one, int_two. lia.
  - apply cls_In in H1 as (c & _ & Hc & ->).
    apply in_range_bounds in Hc. rewrite int_one. lia.
Qed.

Lemma re_M_range s m r : In (m, r) (re_M s) -> 0 <= int m < 60.
Proof.
  unfold re_M, digit. rewrite !alt_In, !seq_In.
  intros [(m1 & r1 & m2 & H1 & H2 & ->)|H1].
  - apply cls_In in H1 as (c & _ & Hc & ->), H2 as (c' & _ & Hc' & ->).
    apply in_range_bounds in Hc, Hc'. rewrite append_one, int_two. lia.
  - apply cls_In in H1 as (c & _ & Hc & ->).
    apply in_range_bounds in Hc. rewrite int_one. lia.
Qed.

Lemma re_HM_In s h m r :
  In (h, m, r) (re_HM s) ->
  exists r1 r2, In (h, r1) (re_H s) /\ In (m, r) (re_M r2).
Proof.
  unfold re_HM. rewrite in_flat_map. intros ([h' r1] & Hh & Hrest).
  apply in_flat_map in Hrest as ([c r2] & _ & Hm).
  apply in_map_iff in Hm as ([m' r'] & [= <- <- <-] & Hm).
  by exists r1, r2.
Qed.

(** What [strptime] returns is a time of day on the minute. *)
Lemma strptime_HM_valid s t :
  strptime_HM s = Some t ->
  valid_time t /\ second t = 0 /\ microsecond t = 0.
Proof.
  unfold strptime_HM.
  destruct (re_HM s) as [|[[h m] rest] l] eqn:E; [done|].
  destruct rest; [|done]. intros [= <-].
  assert (In (h, m, EmptyString) (re_HM s)) as Hin by (rewrite E; by left).
  apply re_HM_In in Hin as (r1 & r2 & Hh & Hm).
  apply re_H_range in Hh. apply re_M_range in Hm.
  unfold valid_time. simpl. lia.
Qed.

Lemma time_eqb_eq a b : time_eqb a b = true -> a = b.
Proof.
  unfold time_eqb. rewrite !andb_true_iff, !Z.eqb_eq.
  destruct a, b. simpl. intros [[[-> ->] ->] ->]. reflexivity.
Qed.

Lemma reads_back_all :
  forallb (fun hh => forallb (reads_back hh) (seqZ 0 60)) (seqZ 0 24) = true.
Proof. vm_compute. reflexivity. Qed.

(** Two digits, a colon and two digits, for an hour below 24 and a minute
    below 60, parse as that time. *)
Lemma strptime_HM_HH_MM hh mm :
  0 <= hh < 24 -> 0 <= mm < 60 ->
  strptime_HM (HH_MM hh mm) = Some (at_time hh mm).
Proof.
  intros Hh Hm. pose proof reads_back_all as Hall.
  rewrite forallb_forall in Hall.
  specialize (Hall hh). rewrite forallb_forall in Hall.
  assert (reads_back hh mm = true) as Hrb.
  { apply Hall; apply list_elem_of_In, elem_of_seqZ; lia. }
  unfold reads_back in Hrb.
  destruct (strptime_HM (HH_MM hh mm)) as [t|]; [|done].
  apply time_eqb_eq in Hrb. by subst.
Qed.
End strptime.

(** ** Maintenance windows *)

Section windows.
Implicit Types (current : time) (c : Config) (d : weekday).

Lemma time_in_window_parsed current start_ end_ s e :
  strptime_HM start_ = Some s -> strptime_HM end_ = Some e ->
  _time_in_window current start_ end_ =
    if time_le s e then time_le s current && time_le current e
    else time_le s current || time_le current e.
Proof.
  unfold _time_in_window. intros -> ->. by rewrite time_ge_le.
Qed.

(** C5. When either bound fails to parse, the window does not match.
    When both parse, to [s] and [e]: if [s <= e] the window matches exactly
    when [s <= current <= e], both ends included; if [s > e] it matches
    exactly when [current >= s] or [current <= e]. *)
Theorem time_in_window_cases current start_ end_ :
  (strptime_HM start_ = None \/ strptime_HM end_ = None ->
   _time_in_window current start_ end_ = false)
  /\ (forall s e,
        strptime_HM start_ = Some s -> strptime_HM end_ = Some e ->
        (time_le s e = true ->
         (_time_in_window current start_ end_ = true <->
          time_le s current = true /\ time_le current e = true))
        /\ (time_le s e = false ->
            (_time_in_window current start_ end_ = true <->
             time_ge current s = true \/ time_le current e = true))).
Proof.
  unfold _time_in_window. split.
  - intros [->| ->]; [done|]. by destruct (strptime_HM start_).
  - intros s e -> ->. split; intros ->.
    + apply andb_true_iff.
    + apply orb_true_iff.
Qed.

(** The same on the instants of the day, for a valid clock reading. *)
Lemma time_in_window_micros current start_ end_ s e :
  valid_time current ->
  strptime_HM start_ = Some s -> strptime_HM end_ = Some e ->
  _time_in_window current start_ end_ = true <->
  if decide (micros_of_day s <= micros_of_day e)
  then micros_of_day s <= micros_of_day current <= micros_of_day e
  else micros_of_day s <= micros_of_day current \/ micros_of_day current <= micros_of_day e.
Proof.
  intros Hc Hs He.
  destruct (strptime_HM_valid _ _ Hs) as (Hvs & _), (strptime_HM_valid _ _ He) as (Hve & _).
  rewrite (time_in_window_parsed _ _ _ _ _ Hs He).
  pose proof (time_le_micros s e Hvs Hve) as Hse.
  pose proof (time_le_micros s current Hvs Hc) as Hsc.
  pose proof (time_le_micros current e Hc Hve) as Hce.
  destruct (time_le s e) eqn:E.
  - rewrite decide_True by (by apply Hse). rewrite andb_true_iff. tauto.
  - rewrite decide_False by (rewrite <- Hse; congruence). rewrite orb_true_iff. tauto.
Qed.

(** The window of every day from 22:00 to 02:00 at four times of day.
    Whatever the day and the rest of the configuration, the monitor is in
    the window at 23:00 and at 01:00, and out of it at 03:00 and at 15:00;
    [_time_in_window] alone answers the same. *)
Theorem in_night_window c d :
  let cfg := with_windows [night_window] c in
  _in_maintenance_window {| wday := d; clock := at_time 23 0 |} cfg = true
  /\ _in_maintenance_window {| wday := d; clock := at_time 1 0 |} cfg = true
  /\ _in_maintenance_window {| wday := d; clock := at_time 3 0 |} cfg = false
  /\ _in_maintenance_window {| wday := d; clock := at_time 15 0 |} cfg = false
  /\ _time_in_window (at_time 23 0) "22:00" "02:00" = true
  /\ _time_in_window (at_time 3 0) "22:00" "02:00" = false
  /\ _time_in_window (at_time 15 0) "22:00" "02:00" = false.
Proof.
  cbv zeta. unfold _in_maintenance_window, with_windows, maintenance_windows.
  assert (window_days night_window = {[ "*"%string ]}) as Hdays.
  { unfold window_days, night_window, days. simpl. set_solver. }
  unfold in_any_window. rewrite Hdays.
  rewrite (bool_decide_eq_true_2 ("*"%string ∈ ({[ "*"%string ]} : gset string)))
    by set_solver.
  simpl. repeat split; vm_compute; reflexivity.
Qed.

(** C4. At 03:00 the code answers [False] for the window of every day
    from 22:00 to 02:00, where the claim expects [True], and with it the
    second assertion of [test_time_window_wraparound] in
    [tests/test_monitor.py]: 03:00 is after the end of the window, neither
    [03:00 >= 22:00] nor [03:00 <= 02:00], so the wrap-around branch of
    [_time_in_window] is false there. *)
Lemma in_night_window_0300 :
  _in_maintenance_window {| wday := Mon; clock := at_time 3 0 |}
    (with_windows [night_window] Config_defaults) = false
  /\ _time_in_window (at_time 3 0) "22:00" "02:00" = false
  /\ time_ge (at_time 3 0) (at_time 22 0) = false
  /\ time_le (at_time 3 0) (at_time 2 0) = false.
Proof. vm_compute. repeat split. Qed.

(** A window whose day set has neither the star nor today is skipped. *)
Lemma in_any_window_other_day now_day now_time window rest :
  "*"%string ∉ window_days window -> now_day ∉ window_days window ->
  in_any_window now_day now_time (window :: rest) = in_any_window now_day now_time rest.
Proof.
  intros Hstar Hday. simpl.
  by rewrite (bool_decide_eq_false_2 _ Hstar), (bool_decide_eq_false_2 _ Hday).
Qed.

(** The loop returns [True] exactly when some window matches the day and
    the time. *)
Lemma in_any_window_exists now_day now_time windows :
  in_any_window now_day now_time windows = true <->
  exists window,
    In window windows
    /\ ("*"%string ∈ window_days window \/ now_day ∈ window_days window)
    /\ _time_in_window now_time (start window) (end_ window) = true.
Proof.
  induction windows as [|w rest IH]; simpl.
  - split; [done|]. by intros (? & [] & _).
  - destruct (bool_decide ("*"%string ∈ window_days w)) eqn:Es;
      destruct (bool_decide (now_day ∈ window_days w)) eqn:Ed; simpl;
      try apply bool_decide_eq_true in Es; try apply bool_decide_eq_true in Ed;
      try apply bool_decide_eq_false in Es; try apply bool_decide_eq_false in Ed.
    4: { rewrite IH. split.
         - intros (w' & Hin & Hrest). exists w'. auto.
         - intros (w' & [<-|Hin] & Hdays & Ht); [tauto|]. by exists w'. }
    all: destruct (_time_in_window now_time (start w) (end_ w)) eqn:Et.
    all: try (split; [intros _; exists w; auto|done]).
    all: rewrite IH; split;
      [intros (w' & Hin & Hrest); exists w'; auto
      |intros (w' & [<-|Hin] & Hdays & Ht); [congruence|by exists w']].
Qed.
End windows.

(** ** The monitor: the shutdown trigger *)

Section trigger.
Implicit Types (w : world) (c : Config) (h : heap).

Lemma trigger_shutdown_initiated w c h :
  shutdown_initiated (self_ h) = true ->
  _trigger_shutdown w c h = (Returned tt, h).
Proof.
  intros Hinit. unfold _trigger_shutdown, bind, get_self. simpl.
  by rewrite Hinit.
Qed.

Lemma trigger_shutdown_dry_run w c h :
  shutdown_initiated (self_ h) = false -> dry_run c = true ->
  _trigger_shutdown w c h = (Returned tt, after_dry_run h).
Proof.
  intros Hinit Hdry. unfold _trigger_shutdown, bind, get_self, put_self. simpl.
  by rewrite Hinit, Hdry.
Qed.

Lemma trigger_shutdown_command w c h :
  shutdown_initiated (self_ h) = false -> dry_run c = false ->
  _trigger_shutdown w c h = (caught (w_shutdown w), after_command h).
Proof.
  intros Hinit Hdry.
  unfold _trigger_shutdown, bind, get_self, put_self, except_os_subprocess,
    subprocess_run_shutdown, bind, emit, ret, raise, after_command, caught.
  simpl. rewrite Hinit, Hdry.
  destruct (w_shutdown w) as [[]|[]]; reflexivity.
Qed.

(** Every call leaves the flag set. *)
Lemma trigger_shutdown_sets_flag w c h :
  shutdown_initiated (self_ (_trigger_shutdown w c h).2) = true.
Proof.
  destruct (shutdown_initiated (self_ h)) eqn:Hinit.
  - by rewrite trigger_shutdown_initiated.
  - destruct (dry_run c) eqn:Hdry.
    + by rewrite trigger_shutdown_dry_run.
    + by rewrite trigger_shutdown_command.
Qed.

Lemma trigger_calls_initiated calls h :
  shutdown_initiated (self_ h) = true -> trigger_calls calls h = h.
Proof.
  intros Hinit. induction calls as [|[w c] calls IH]; [done|].
  unfold trigger_calls in *. simpl. by rewrite trigger_shutdown_initiated.
Qed.

Lemma trigger_calls_cons w c calls h :
  trigger_calls ((w, c) :: calls) h = trigger_calls calls (_trigger_shutdown w c h).2.
Proof. reflexivity. Qed.

Lemma shutdown_commands_app tr tr' :
  shutdown_commands (tr ++ tr') = (shutdown_commands tr + shutdown_commands tr')%nat.
Proof. unfold shutdown_commands. by rewrite List.filter_app, length_app. Qed.

(** What a series of calls adds to the trace holds at most one shutdown
    command. *)
Lemma trigger_calls_trace calls h :
  exists added,
    trace (trigger_calls calls h) = trace h ++ added
    /\ (shutdown_commands added <= 1)%nat.
Proof.
  destruct calls as [|[w c] calls].
  - exists []. split; [by rewrite app_nil_r|unfold shutdown_commands; simpl; lia].
  - rewrite trigger_calls_cons.
    rewrite trigger_calls_initiated by apply trigger_shutdown_sets_flag.
    destruct (shutdown_initiated (self_ h)) eqn:Hinit.
    + rewrite trigger_shutdown_initiated by done.
      exists []. split; [by rewrite app_nil_r|unfold shutdown_commands; simpl; lia].
    + destruct (dry_run c) eqn:Hdry.
      * rewrite trigger_shutdown_dry_run by done.
        exists []. split; [by rewrite app_nil_r|unfold shutdown_commands; simpl; lia].
      * rewrite trigger_shutdown_command by done.
        exists [RunShutdownCommand]. split; [done|]. unfold shutdown_commands. simpl. lia.
Qed.

(** C7. Over any series of calls of [_trigger_shutdown] on a monitor, each
    with its own configuration and outcome of the command, the series adds
    at most one shutdown command to the trace; a call on a monitor whose
    [shutdown_initiated] is set changes nothing, and every call leaves it
    set; a call with [dry_run] on adds no event at all. *)
Theorem trigger_shutdown_at_most_once calls h :
  (exists added,
     trace (trigger_calls calls h) = trace h ++ added
     /\ (shutdown_commands added <= 1)%nat)
  /\ (shutdown_commands (trace (trigger_calls calls h))
      <= shutdown_commands (trace h) + 1)%nat
  /\ (forall w c, shutdown_initiated (self_ (_trigger_shutdown w c h).2) = true)
  /\ (forall w c,
        shutdown_initiated (self_ h) = true ->
        _trigger_shutdown w c h = (Returned tt, h))
  /\ (shutdown_initiated (self_ h) = true -> trigger_calls calls h = h)
  /\ (forall w c,
        dry_run c = true ->
        trace (_trigger_shutdown w c h).2 = trace h).
Proof.
  split; [apply trigger_calls_trace|].
  split.
  { destruct (trigger_calls_trace calls h) as (added & -> & Hle).
    rewrite shutdown_commands_app. lia. }
  split; [intros w c; apply trigger_shutdown_sets_flag|].
  split; [intros w c; apply trigger_shutdown_initiated|].
  split; [apply trigger_calls_initiated|].
  intros w c Hdry. destruct (shutdown_initiated (self_ h)) eqn:Hinit.
  - by rewrite trigger_shutdown_initiated.
  - by rewrite trigger_shutdown_dry_run.
Qed.
End trigger.

(** ** The monitor: a cycle inside a maintenance window *)

Section cycle.
Implicit Types (w : world) (c : Config) (h : heap).

(** No instance selected: the cycle returns at once, whatever the
    windows say. *)
Lemma poll_once_no_instances w c h :
  selected_instances c = [] -> _poll_once w c h = (Returned tt, h).
Proof. unfold _poll_once. by intros ->. Qed.

(** C6, as the code has it. In a cycle with at least one selected
    instance and the current time inside a matching maintenance window,
    [_poll_once] returns after moving the decider's [last_activity] to the
    clock reading: the trace is as before (no player counts fetched, no
    observation registered, no shutdown command), and the latch, the
    [shutdown_initiated] flag and the stop event are as before. *)
Theorem poll_once_in_maintenance w c h :
  selected_instances c <> [] ->
  _in_maintenance_window (w_now w) c = true ->
  _poll_once w c h =
    (Returned tt,
     {| self_ := {| decider := set_last_activity (w_utcnow w) <$> decider (self_ h);
                    shutdown_initiated := shutdown_initiated (self_ h) |};
        stop_event := stop_event h;
        trace := trace h |})
  /\ trace (_poll_once w c h).2 = trace h
  /\ stop_event (_poll_once w c h).2 = stop_event h
  /\ shutdown_initiated (self_ (_poll_once w c h).2) = shutdown_initiated (self_ h)
  /\ forall d,
       decider (self_ h) = Some d ->
       exists d',
         decider (self_ (_poll_once w c h).2) = Some d'
         /\ last_activity (state d') = w_utcnow w
         /\ shutdown_triggered (state d') = shutdown_triggered (state d).
Proof.
  intros Hsel Hwin.
  assert (_poll_once w c h =
    (Returned tt,
     {| self_ := {| decider := set_last_activity (w_utcnow w) <$> decider (self_ h);
                    shutdown_initiated := shutdown_initiated (self_ h) |};
        stop_event := stop_event h;
        trace := trace h |})) as Heq.
  { unfold _poll_once. destruct (selected_instances c) as [|i is_]; [done|].
    rewrite Hwin. unfold bind, get_self, put_self, ret. simpl.
    destruct h as [[[d|] init] stop tr]; reflexivity. }
  rewrite Heq. simpl. repeat split.
  intros d ->. by exists (set_last_activity (w_utcnow w) d).
Qed.

Lemma poll_once_in_maintenance_witness :
  let c := with_instances ["survival"%string] (with_windows [all_day_window] Config_defaults) in
  let h := heap_of (decider_at 0 c) in
  trace (_poll_once noon_world c h).2 = []
  /\ (last_activity ∘ state <$> decider (self_ (_poll_once noon_world c h).2)) = Some 1000000.
Proof.
  cbv zeta.
  destruct (poll_once_in_maintenance noon_world
              (with_instances ["survival"%string]
                 (with_windows [all_day_window] Config_defaults))
              (heap_of (decider_at 0
                 (with_instances ["survival"%string]
                    (with_windows [all_day_window] Config_defaults)))))
    as (Heq & Htr & _).
  - discriminate.
  - vm_compute. reflexivity.
  - split; [exact Htr|]. rewrite Heq. reflexivity.
Defined.

(** C6 as stated fails when no instance is selected: the cycle returns
    before it looks at the windows, and [last_activity] (here 0) is not
    moved to the clock reading (here 1000000). *)
Lemma poll_once_in_maintenance_no_instances :
  let c := with_windows [all_day_window] Config_defaults in
  let h := heap_of (decider_at 0 c) in
  _in_maintenance_window (w_now noon_world) c = true
  /\ _poll_once noon_world c h = (Returned tt, h)
  /\ (last_activity ∘ state <$> decider (self_ (_poll_once noon_world c h).2)) = Some 0
  /\ w_utcnow noon_world = 1000000.
Proof. vm_compute. repeat split. Qed.
End cycle.

(** ** The decider: when it fires *)

Section fires.
Implicit Types (self d : ShutdownDecider) (player_counts : gmap string Z) (now : datetime).

Lemma register_observation_fired_iff now player_counts self :
  (register_observation now player_counts self).1 = true <->
  player_counts <> ∅
  /\ all_idle self player_counts
  /\ idle_delta self <= now - last_activity (state self)
  /\ shutdown_triggered (state self) = false.
Proof.
  split.
  - unfold register_observation.
    destruct (Nat.eqb (size player_counts) 0) eqn:Esz; [done|].
    destruct (above_threshold self player_counts) eqn:Eab; [done|].
    destruct (idle_delta self <=? now - last_activity (state self)) eqn:Ed; [|done].
    destruct (shutdown_triggered (state self)); [done|]. intros _.
    split; [|split; [|split]].
    + intros ->. by rewrite map_size_empty in Esz.
    + by apply above_threshold_false.
    + by apply Z.leb_le.
    + reflexivity.
  - intros (Hne & Hidle & Hdelay & Hlatch).
    by rewrite (register_observation_fire _ _ _ Hlatch Hne Hidle Hdelay).
Qed.

(** X1. [register_observation] returns [True] exactly when the observation
    is not empty, no count is above its effective threshold, the idle time
    has reached the delay and the latch is open. *)
Theorem register_observation_true_iff now player_counts self :
  (register_observation now player_counts self).1 = true <->
  player_counts <> ∅
  /\ (forall name count,
        player_counts !! name = Some count -> count <= _threshold_for self name)
  /\ idle_delta self <= now - last_activity (state self)
  /\ shutdown_triggered (state self) = false.
Proof.
  rewrite register_observation_fired_iff. unfold all_idle.
  by rewrite map_Forall_lookup.
Qed.

(** The configuration and the delay are never touched by an observation,
    and [last_activity] only moves to the clock reading. *)
Lemma register_observation_frame now player_counts self :
  config (register_observation now player_counts self).2 = config self
  /\ idle_delta (register_observation now player_counts self).2 = idle_delta self
  /\ (last_activity (state (register_observation now player_counts self).2)
        = last_activity (state self)
      \/ last_activity (state (register_observation now player_counts self).2) = now).
Proof.
  unfold register_observation.
  destruct (Nat.eqb (size player_counts) 0); [by auto|].
  destruct (above_threshold self player_counts); [by auto|].
  destruct (idle_delta self <=? now - last_activity (state self));
    destruct (shutdown_triggered (state self)); simpl; auto.
Qed.
End fires.

(** ** The monitor: a cycle outside the windows *)

Section outside.
Implicit Types (w : world) (c : Config) (h : heap) (d : ShutdownDecider).

Lemma shutdown_commands_fetch c : shutdown_commands (fetch_events c) = 0%nat.
Proof. reflexivity. Qed.

(** The cycle up to the answer of the API. *)
Lemma poll_once_reaches_api w c h :
  reaches_api w c ->
  _poll_once w c h =
    match w_player_counts w with
    | Returned player_counts =>
        observe_and_act w c player_counts (with_events (fetch_events c) h)
    | Raised AMPAPIError => (Returned tt, with_events (fetch_events c) h)
    | Raised e => (Raised e, with_events (fetch_events c) h)
    end.
Proof.
  intros (Hsel & Hwin & Hurl). unfold _poll_once.
  destruct (selected_instances c) as [|i rest] eqn:Es; [done|].
  rewrite Hwin. unfold bind, emit, new_AMPClient, get_player_counts, ret, raise.
  destruct (amp_base_url c) as [|a u]; [done|]. simpl.
  unfold bind, emit, with_events, fetch_events. rewrite Es. simpl.
  rewrite <- app_assoc. simpl.
  destruct (w_player_counts w) as [pc|[]]; reflexivity.
Qed.

(** The cycle from the counts on, when the decider does not fire. *)
Lemma observe_and_act_quiet w c player_counts h d :
  decider (self_ h) = Some d ->
  (register_observation (w_utcnow w) player_counts d).1 = false ->
  observe_and_act w c player_counts h =
    (Returned tt,
     with_decider (register_observation (w_utcnow w) player_counts d).2
       (with_events [RegisterObservation player_counts] h)).
Proof.
  intros Hd Hr. unfold observe_and_act, bind, get_self, emit, put_self, ret. simpl.
  rewrite Hd. simpl. by rewrite Hr.
Qed.

(** The cycle from the counts on, when the decider fires. *)
Lemma observe_and_act_fired w c player_counts h d :
  decider (self_ h) = Some d ->
  (register_observation (w_utcnow w) player_counts d).1 = true ->
  observe_and_act w c player_counts h =
    let h1 := with_decider (register_observation (w_utcnow w) player_counts d).2
                (with_events [RegisterObservation player_counts] h) in
    match _trigger_shutdown w c h1 with
    | (Returned _, h2) => (Returned tt, set_stop_event true h2)
    | (Raised e, h2) => (Raised e, h2)
    end.
Proof.
  intros Hd Hr. unfold observe_and_act, bind, get_self, emit, put_self, ret. simpl.
  rewrite Hd. simpl. rewrite Hr. unfold with_decider, with_events, stop_event_set. simpl.
  by destruct (_trigger_shutdown w c _) as [[[]|e] h2].
Qed.

Lemma observe_and_act_no_decider w c player_counts h :
  decider (self_ h) = None ->
  observe_and_act w c player_counts h = (Returned tt, h).
Proof.
  intros Hd. unfold observe_and_act, bind, get_self, ret. simpl. by rewrite Hd.
Qed.
End outside.

(** ** The monitor: what a cycle may do *)

Section cycle_effects.
Implicit Types (w : world) (c : Config) (h : heap) (d : ShutdownDecider).

Lemma poll_once_in_window w c h :
  selected_instances c <> [] ->
  _in_maintenance_window (w_now w) c = true ->
  (_poll_once w c h).1 = Returned tt
  /\ trace (_poll_once w c h).2 = trace h
  /\ stop_event (_poll_once w c h).2 = stop_event h
  /\ shutdown_initiated (self_ (_poll_once w c h).2) = shutdown_initiated (self_ h).
Proof.
  intros Hsel Hwin. unfold _poll_once.
  destruct (selected_instances c); [done|]. rewrite Hwin.
  unfold bind, get_self, put_self, ret. simpl.
  by destruct (decider (self_ h)).
Qed.

Lemma poll_once_no_base_url w c h :
  selected_instances c <> [] ->
  _in_maintenance_window (w_now w) c = false ->
  amp_base_url c = EmptyString ->
  _poll_once w c h = (Raised ValueError, with_events [GetApiKey (api_key_alias c)] h).
Proof.
  intros Hsel Hwin Hurl. unfold _poll_once.
  destruct (selected_instances c); [done|]. rewrite Hwin.
  unfold bind, emit, new_AMPClient, raise. by rewrite Hurl.
Qed.

Lemma shutdown_commands_with_events evs h :
  shutdown_commands (trace (with_events evs h))
  = (shutdown_commands (trace h) + shutdown_commands evs)%nat.
Proof. unfold with_events. simpl. apply shutdown_commands_app. Qed.

Ltac count_commands :=
  cbn [snd trace with_events with_decider set_stop_event];
  rewrite ?shutdown_commands_app, ?shutdown_commands_fetch;
  unfold shutdown_commands; simpl.

(** What [_trigger_shutdown] leaves behind, in the three cases. *)
Lemma trigger_shutdown_effect w c h :
  let r := _trigger_shutdown w c h in
  shutdown_initiated (self_ r.2) = true
  /\ decider (self_ r.2) = decider (self_ h)
  /\ stop_event r.2 = stop_event h
  /\ ((shutdown_initiated (self_ h) = false /\ dry_run c = false
       /\ trace r.2 = trace h ++ [RunShutdownCommand]
       /\ r.1 = caught (w_shutdown w))
      \/ ((shutdown_initiated (self_ h) = true \/ dry_run c = true)
          /\ trace r.2 = trace h /\ r.1 = Returned tt)).
Proof.
  cbv zeta. destruct (shutdown_initiated (self_ h)) eqn:Hinit.
  - rewrite trigger_shutdown_initiated by done. simpl. rewrite Hinit. by auto 10.
  - destruct (dry_run c) eqn:Hdry.
    + rewrite trigger_shutdown_dry_run by done. simpl. by auto 10.
    + rewrite trigger_shutdown_command by done. simpl. by auto 10.
Qed.

(** X2. A cycle runs the shutdown command exactly when at least one
    instance is selected, no maintenance window matches, a base URL is
    set, the API answered with counts, the monitor has a decider for which
    these counts are not empty, none is above its threshold, the idle time
    has reached the delay and the latch is open, and neither [dry_run] nor
    [shutdown_initiated] is set. In every other cycle the trace gains no
    shutdown command. *)
Theorem poll_once_command_iff w c h :
  (shutdown_commands (trace (_poll_once w c h).2)
   = S (shutdown_commands (trace h)) <->
   reaches_api w c
   /\ dry_run c = false
   /\ shutdown_initiated (self_ h) = false
   /\ exists player_counts d,
        w_player_counts w = Returned player_counts
        /\ decider (self_ h) = Some d
        /\ player_counts <> ∅
        /\ all_idle d player_counts
        /\ idle_delta d <= w_utcnow w - last_activity (state d)
        /\ shutdown_triggered (state d) = false)
  /\ (shutdown_commands (trace (_poll_once w c h).2)
      = S (shutdown_commands (trace h))
      \/ shutdown_commands (trace (_poll_once w c h).2)
         = shutdown_commands (trace h)).
Proof.
  assert (forall n : nat, n = S n -> False) as Hsucc by lia.
  destruct (selected_instances c) as [|i rest] eqn:Hsel.
  { rewrite poll_once_no_instances by done. split; [|by right].
    split; [intros E; by apply Hsucc in E|].
    unfold reaches_api. intros ((? & _) & _). congruence. }
  assert (selected_instances c <> []) as Hsel' by (by rewrite Hsel).
  destruct (_in_maintenance_window (w_now w) c) eqn:Hwin.
  { destruct (poll_once_in_window w c h Hsel' Hwin) as (_ & -> & _).
    split; [|by right].
    split; [intros E; by apply Hsucc in E|].
    unfold reaches_api. intros ((_ & ? & _) & _). congruence. }
  destruct (amp_base_url c) as [|a u] eqn:Hurl.
  { rewrite poll_once_no_base_url by done. count_commands.
    split; [|right; lia].
    split; [intros E; lia|].
    unfold reaches_api. intros ((_ & _ & ?) & _). congruence. }
  assert (reaches_api w c) as Hreach.
  { unfold reaches_api. by rewrite Hurl. }
  rewrite (poll_once_reaches_api _ _ _ Hreach).
  destruct (w_player_counts w) as [pc|e] eqn:Hpc.
  2: { assert (shutdown_commands
                 (trace (match e with
                         | AMPAPIError => (Returned tt, with_events (fetch_events c) h)
                         | _ => (Raised e, with_events (fetch_events c) h)
                         end).2) = shutdown_commands (trace h)) as ->
         by (destruct e; count_commands; lia).
       split; [|by right].
       split; [intros E; by apply Hsucc in E|]. by intros (_ & _ & _ & ? & ? & ? & _). }
  destruct (decider (self_ h)) as [d|] eqn:Hd.
  2: { rewrite observe_and_act_no_decider by done. count_commands.
       split; [|right; lia].
       split; [intros E; lia|].
       by intros (_ & _ & _ & ? & ? & _ & ? & _). }
  destruct (register_observation (w_utcnow w) pc d).1 eqn:Hr.
  - rewrite (observe_and_act_fired _ _ _ _ d) by done. cbv zeta.
    set (h1 := with_decider _ _).
    destruct (trigger_shutdown_effect w c h1) as (_ & _ & _ & Hcase).
    destruct (_trigger_shutdown w c h1) as [o h2]. simpl in Hcase.
    assert (shutdown_commands (trace h1) = shutdown_commands (trace h)) as Hh1
      by (unfold h1; count_commands; lia).
    assert (shutdown_commands (trace (match o with
                                      | Returned _ => (Returned tt, set_stop_event true h2)
                                      | Raised e => (Raised e, h2)
                                      end).2) = shutdown_commands (trace h2)) as ->
      by (by destruct o).
    apply register_observation_fired_iff in Hr as (Hne & Hidle & Hdelay & Hlatch).
    destruct Hcase as [(Hinit & Hdry & -> & _)|(Hor & -> & _)].
    + count_commands.
      split; [|left; lia]. split; [intros _|intros _; lia].
      split; [done|]. split; [done|]. split; [exact Hinit|]. by exists pc, d.
    + count_commands. split; [|right; lia].
      split; [intros E; lia|].
      intros (_ & Hdry & Hinit & _). destruct Hor; congruence.
  - rewrite (observe_and_act_quiet _ _ _ _ d) by done. count_commands.
    split; [|right; lia].
    split; [intros E; lia|].
    intros (_ & _ & _ & pc' & d' & [= <-] & [= <-] & Hne & Hidle & Hdelay & Hlatch).
    assert ((register_observation (w_utcnow w) pc d).1 = true) as Ht
      by (by apply register_observation_fired_iff).
    congruence.
Qed.

(** The cycle never drops the decider and never touches its configuration
    or its delay. *)
Lemma poll_once_decider_frame w c h d :
  decider (self_ h) = Some d ->
  exists d',
    decider (self_ (_poll_once w c h).2) = Some d'
    /\ config d' = config d
    /\ idle_delta d' = idle_delta d.
Proof.
  intros Hd.
  destruct (selected_instances c) as [|i rest] eqn:Hsel.
  { rewrite poll_once_no_instances by done. by exists d. }
  assert (selected_instances c <> []) as Hsel' by (by rewrite Hsel).
  destruct (_in_maintenance_window (w_now w) c) eqn:Hwin.
  { unfold _poll_once. rewrite Hsel, Hwin.
    unfold bind, get_self, put_self, ret. simpl. rewrite Hd. simpl.
    by exists (set_last_activity (w_utcnow w) d). }
  destruct (amp_base_url c) as [|a u] eqn:Hurl.
  { rewrite poll_once_no_base_url by done. by exists d. }
  assert (reaches_api w c) as Hreach.
  { unfold reaches_api. by rewrite Hurl. }
  rewrite (poll_once_reaches_api _ _ _ Hreach).
  destruct (w_player_counts w) as [pc|e] eqn:Hpc.
  2: { exists d. by destruct e. }
  destruct (register_observation_frame (w_utcnow w) pc d) as (Hcfg & Hdelta & _).
  destruct (register_observation (w_utcnow w) pc d).1 eqn:Hr.
  - rewrite (observe_and_act_fired _ _ _ _ d) by done. cbv zeta.
    set (h1 := with_decider _ _).
    destruct (trigger_shutdown_effect w c h1) as (_ & Hdec & _).
    destruct (_trigger_shutdown w c h1) as [o h2]. simpl in Hdec.
    exists (register_observation (w_utcnow w) pc d).2.
    split; [by destruct o|done].
  - rewrite (observe_and_act_quiet _ _ _ _ d) by done.
    by exists (register_observation (w_utcnow w) pc d).2.
Qed.

(** X5. When the API fails, the cycle leaves the monitor and the stop
    event as they were: the decider sees neither activity nor idleness.
    An [AMPAPIError] is swallowed; any other exception leaves the cycle. *)
Theorem poll_once_api_failure w c h e :
  reaches_api w c ->
  w_player_counts w = Raised e ->
  self_ (_poll_once w c h).2 = self_ h
  /\ stop_event (_poll_once w c h).2 = stop_event h
  /\ trace (_poll_once w c h).2 = trace h ++ fetch_events c
  /\ (_poll_once w c h).1
     = match e with AMPAPIError => Returned tt | _ => Raised e end.
Proof.
  intros Hreach He. rewrite (poll_once_reaches_api _ _ _ Hreach), He.
  by destruct e.
Qed.

Lemma poll_once_api_failure_witness :
  (_poll_once down_world live_config (heap_of (decider_at 0 live_config))).1 = Returned tt
  /\ self_ (_poll_once down_world live_config (heap_of (decider_at 0 live_config))).2
     = self_ (heap_of (decider_at 0 live_config)).
Proof.
  destruct (poll_once_api_failure down_world live_config
              (heap_of (decider_at 0 live_config)) AMPAPIError)
    as (Hself & _ & _ & Hout).
  - unfold reaches_api.
    split; [by vm_compute|split; [vm_compute; reflexivity|by vm_compute]].
  - reflexivity.
  - split; [exact Hout|exact Hself].
Defined.

(** X6. In dry-run mode a cycle in which the decider fires runs no
    command, yet it sets [shutdown_initiated] and the stop event, and the
    decider stays latched: the monitor stops after its first dry-run
    trigger. *)
Theorem poll_once_dry_run_trigger w c h player_counts d :
  reaches_api w c ->
  w_player_counts w = Returned player_counts ->
  decider (self_ h) = Some d ->
  (register_observation (w_utcnow w) player_counts d).1 = true ->
  dry_run c = true ->
  (_poll_once w c h).1 = Returned tt
  /\ trace (_poll_once w c h).2
     = trace h ++ fetch_events c ++ [RegisterObservation player_counts]
  /\ stop_event (_poll_once w c h).2 = true
  /\ shutdown_initiated (self_ (_poll_once w c h).2) = true
  /\ decider (self_ (_poll_once w c h).2)
     = Some (register_observation (w_utcnow w) player_counts d).2.
Proof.
  intros Hreach Hpc Hd Hr Hdry.
  rewrite (poll_once_reaches_api _ _ _ Hreach), Hpc.
  rewrite (observe_and_act_fired _ _ _ _ d) by done. cbv zeta.
  set (h1 := with_decider _ _).
  destruct (shutdown_initiated (self_ h)) eqn:Hinit.
  - rewrite trigger_shutdown_initiated by done. unfold h1. simpl.
    rewrite <- app_assoc, Hinit. by auto.
  - rewrite trigger_shutdown_dry_run by done. unfold h1. simpl.
    rewrite <- app_assoc. by auto.
Qed.

Lemma poll_once_dry_run_trigger_witness :
  stop_event (_poll_once idle_world dry_config (heap_of (decider_at 0 dry_config))).2 = true
  /\ shutdown_commands
       (trace (_poll_once idle_world dry_config (heap_of (decider_at 0 dry_config))).2)
     = 0%nat.
Proof.
  destruct (poll_once_dry_run_trigger idle_world dry_config
              (heap_of (decider_at 0 dry_config))
              {[ "survival"%string := 0 ]} (decider_at 0 dry_config))
    as (_ & Htr & Hstop & _).
  - unfold reaches_api.
    split; [by vm_compute|split; [vm_compute; reflexivity|by vm_compute]].
  - reflexivity.
  - reflexivity.
  - vm_compute. reflexivity.
  - reflexivity.
  - split; [exact Hstop|]. rewrite Htr. reflexivity.
Defined.

(** X7. A cycle in which the decider fires, outside dry-run and with no
    shutdown initiated before, runs the command once and sets
    [shutdown_initiated]. An [OSError] or [SubprocessError] of the command
    is swallowed and the stop event is set as after a success, so the
    command is not tried again; any other exception leaves the cycle
    before the stop event is set. *)
Theorem poll_once_command_outcome w c h player_counts d :
  reaches_api w c ->
  w_player_counts w = Returned player_counts ->
  decider (self_ h) = Some d ->
  (register_observation (w_utcnow w) player_counts d).1 = true ->
  dry_run c = false ->
  shutdown_initiated (self_ h) = false ->
  (_poll_once w c h).1 = caught (w_shutdown w)
  /\ trace (_poll_once w c h).2
     = trace h ++ fetch_events c
         ++ [RegisterObservation player_counts; RunShutdownCommand]
  /\ shutdown_initiated (self_ (_poll_once w c h).2) = true
  /\ stop_event (_poll_once w c h).2
     = match caught (w_shutdown w) with
       | Returned _ => true
       | Raised _ => stop_event h
       end.
Proof.
  intros Hreach Hpc Hd Hr Hdry Hinit.
  rewrite (poll_once_reaches_api _ _ _ Hreach), Hpc.
  rewrite (observe_and_act_fired _ _ _ _ d) by done. cbv zeta.
  rewrite trigger_shutdown_command by done.
  destruct (caught (w_shutdown w)) as [[]|e'] eqn:Hc; simpl;
    rewrite <- !app_assoc; by auto.
Qed.

Lemma poll_once_command_outcome_witness :
  (_poll_once refusing_world live_config (heap_of (decider_at 0 live_config))).1
  = Returned tt
  /\ stop_event (_poll_once refusing_world live_config
                   (heap_of (decider_at 0 live_config))).2 = true.
Proof.
  destruct (poll_once_command_outcome refusing_world live_config
              (heap_of (decider_at 0 live_config))
              {[ "survival"%string := 0 ]} (decider_at 0 live_config))
    as (Hout & _ & _ & Hstop).
  - unfold reaches_api.
    split; [by vm_compute|split; [vm_compute; reflexivity|by vm_compute]].
  - reflexivity.
  - reflexivity.
  - vm_compute. reflexivity.
  - reflexivity.
  - reflexivity.
  - split; [exact Hout|exact Hstop].
Defined.

(** X8. With an empty base URL, which is the default, a cycle that has
    instances to watch and is outside every window raises [ValueError]
    out of the client's constructor after reading the API key: nothing is
    fetched or observed, and the monitor and the stop event are as
    before. *)
Theorem poll_once_without_base_url w c h :
  selected_instances c <> [] ->
  _in_maintenance_window (w_now w) c = false ->
  amp_base_url c = EmptyString ->
  (_poll_once w c h).1 = Raised ValueError
  /\ trace (_poll_once w c h).2 = trace h ++ [GetApiKey (api_key_alias c)]
  /\ self_ (_poll_once w c h).2 = self_ h
  /\ stop_event (_poll_once w c h).2 = stop_event h.
Proof.
  intros Hsel Hwin Hurl. by rewrite poll_once_no_base_url.
Qed.

Lemma poll_once_without_base_url_witness :
  (_poll_once idle_world (with_instances ["survival"%string] Config_defaults)
     (heap_of (decider_at 0 Config_defaults))).1 = Raised ValueError.
Proof.
  destruct (poll_once_without_base_url idle_world
              (with_instances ["survival"%string] Config_defaults)
              (heap_of (decider_at 0 Config_defaults))) as (Hout & _).
  - discriminate.
  - vm_compute. reflexivity.
  - reflexivity.
  - exact Hout.
Defined.
End cycle_effects.

(** ** The loop of [run] *)

Section run_loop.
Implicit Types (w : world) (c config : Config) (h : heap) (t : tick).

Lemma cycle_shape_refl w h : cycle_shape w h h.
Proof. exists []. rewrite app_nil_r. by auto. Qed.

Lemma cycle_shape_quiet w h h' evs :
  trace h' = trace h ++ evs ->
  (shutdown_initiated (self_ h) = true -> shutdown_initiated (self_ h') = true) ->
  shutdown_commands evs = 0%nat ->
  cycle_shape w h h'.
Proof. intros Htr Hinit Hev. exists evs. by auto. Qed.

Lemma poll_once_shape w c h : cycle_shape w h (_poll_once w c h).2.
Proof.
  destruct (selected_instances c) as [|i rest] eqn:Hsel.
  { rewrite poll_once_no_instances by done. apply cycle_shape_refl. }
  assert (selected_instances c <> []) as Hsel' by (by rewrite Hsel).
  destruct (_in_maintenance_window (w_now w) c) eqn:Hwin.
  { destruct (poll_once_in_window w c h Hsel' Hwin) as (_ & Htr & _ & Hinit).
    apply (cycle_shape_quiet _ _ _ []); [by rewrite app_nil_r|by rewrite Hinit|done]. }
  destruct (amp_base_url c) as [|a u] eqn:Hurl.
  { rewrite poll_once_no_base_url by done.
    by apply (cycle_shape_quiet _ _ _ [GetApiKey (api_key_alias c)]). }
  assert (reaches_api w c) as Hreach.
  { unfold reaches_api. by rewrite Hurl. }
  rewrite (poll_once_reaches_api _ _ _ Hreach).
  destruct (w_player_counts w) as [pc|e] eqn:Hpc.
  2: { apply (cycle_shape_quiet _ _ _ (fetch_events c)); by destruct e. }
  destruct (decider (self_ h)) as [d|] eqn:Hd.
  2: { rewrite observe_and_act_no_decider by done.
       by apply (cycle_shape_quiet _ _ _ (fetch_events c)). }
  destruct (register_observation (w_utcnow w) pc d).1 eqn:Hr.
  - rewrite (observe_and_act_fired _ _ _ _ d) by done. cbv zeta.
    set (h1 := with_decider _ _).
    destruct (trigger_shutdown_effect w c h1) as (Hflag & _ & _ & Hcase).
    destruct (_trigger_shutdown w c h1) as [o h2]. simpl in Hflag, Hcase.
    destruct Hcase as [(Hinit & Hdry & Htr & Ho)|(Hor & Htr & Ho)].
    + exists ((fetch_events c ++ [RegisterObservation pc]) ++ [RunShutdownCommand]).
      split; [|split].
      * destruct o; simpl; rewrite Htr; by rewrite <- !app_assoc.
      * intros _. by destruct o.
      * right. exists (fetch_events c ++ [RegisterObservation pc]).
        split; [done|]. split; [done|]. split; [done|].
        split; [by destruct o|].
        intros Hc. rewrite Hc in Ho. by subst o.
    + apply (cycle_shape_quiet _ _ _ (fetch_events c ++ [RegisterObservation pc])).
      * destruct o; simpl; rewrite Htr; by rewrite <- !app_assoc.
      * intros _. by destruct o.
      * done.
  - rewrite (observe_and_act_quiet _ _ _ _ d) by done.
    apply (cycle_shape_quiet _ _ _ (fetch_events c ++ [RegisterObservation pc]));
      [simpl; by rewrite <- app_assoc|done|done].
Qed.

Lemma cycle_shape_from w h h1 h' :
  trace h1 = trace h ->
  shutdown_initiated (self_ h1) = shutdown_initiated (self_ h) ->
  cycle_shape w h1 h' -> cycle_shape w h h'.
Proof.
  intros Htr Hinit (evs & Hevs & Hmono & Hcase).
  exists evs. rewrite <- Htr, <- Hinit. by auto.
Qed.

Lemma reconfigure_effect config h :
  trace (reconfigure config h).2 = trace h
  /\ stop_event (reconfigure config h).2 = stop_event h
  /\ shutdown_initiated (self_ (reconfigure config h).2) = shutdown_initiated (self_ h).
Proof.
  unfold reconfigure, bind, get_self, put_self, ret, raise. simpl.
  destruct (decider (self_ h)) as [d|]; [|done]. simpl.
  by destruct (update_config config d).1.
Qed.

Lemma reconfigure_overflow c h d :
  decider (self_ h) = Some d ->
  MAX_DELTA_MINUTES < idle_delay_minutes c ->
  reconfigure c h = (Raised OverflowError, with_decider (set_config c d) h).
Proof.
  intros Hd Hbig. unfold reconfigure, get_self, put_self, raise, ret, bind.
  rewrite Hd. by rewrite update_config_overflow.
Qed.

Lemma reconfigure_in_range c h d :
  decider (self_ h) = Some d ->
  idle_delay_minutes c <= MAX_DELTA_MINUTES ->
  reconfigure c h
  = (Returned tt,
     with_decider
       (set_idle_delta (Z.max 1 (idle_delay_minutes c) * US_PER_MINUTE) (set_config c d)) h).
Proof.
  intros Hd Hok. unfold reconfigure, get_self, put_self, raise, ret, bind.
  rewrite Hd. by rewrite update_config_in_range.
Qed.

Lemma loop_body_shape t config h :
  cycle_shape (t_world t) h (loop_body t config h).2.
Proof.
  unfold loop_body.
  destruct (t_load t) as [config'|]; [|apply cycle_shape_refl].
  destruct (t_logging t); [|apply cycle_shape_refl]. simpl.
  destruct (reconfigure_effect config' h) as (Htr & _ & Hinit).
  unfold bind. destruct (reconfigure config' h) as [[[]|e] h1]; simpl in *.
  - eapply cycle_shape_from; [exact Htr|exact Hinit|apply poll_once_shape].
  - apply (cycle_shape_quiet _ _ _ []); [by rewrite app_nil_r|by rewrite Hinit|done].
Qed.

Lemma commands_left_set_stop_event b h :
  commands_left (set_stop_event b h) = commands_left h.
Proof. reflexivity. Qed.

Lemma run_loop_stopped ticks config h waits :
  stop_event h = true -> run_loop ticks config h waits = (Stopped, h, waits).
Proof. intros Hs. destruct ticks; simpl; by rewrite Hs. Qed.

(** What a run of the loop adds to the trace. *)
Lemma run_loop_shape ticks : forall config h waits,
  exists evs,
    trace (run_loop ticks config h waits).1.2 = trace h ++ evs
    /\ (shutdown_commands evs <= commands_left h)%nat
    /\ (Forall tick_ok ticks ->
        shutdown_commands evs = 1%nat ->
        (exists pre, evs = pre ++ [RunShutdownCommand])
        /\ (run_loop ticks config h waits).1.1 <> StillRunning).
Proof.
  induction ticks as [|t rest IH]; intros config h waits.
  { exists []. rewrite app_nil_r. simpl.
    destruct (stop_event h); simpl;
      (split; [done|]; split; [unfold shutdown_commands; simpl; lia|]);
      intros _ E; unfold shutdown_commands in E; simpl in E; lia. }
  simpl. destruct (stop_event h) eqn:Hstop.
  { exists []. rewrite app_nil_r. simpl.
    split; [done|]. split; [unfold shutdown_commands; simpl; lia|].
    intros _ E. unfold shutdown_commands in E. simpl in E. lia. }
  destruct (loop_body_shape t config h) as (evs1 & Htr1 & Hmono & Hcase).
  set (r := loop_body t config h) in *.
  destruct (t_wait t) as [b|e] eqn:Hwait.
  - set (h2 := set_stop_event (stop_event r.2 || b) r.2).
    destruct (IH r.1 h2 (waits ++ [Z.max 5 (poll_interval_seconds r.1)]))
      as (evs2 & Htr2 & Hle2 & Hlast2).
    exists (evs1 ++ evs2). split; [|split].
    + rewrite Htr2. unfold h2. simpl. rewrite Htr1. by rewrite app_assoc.
    + rewrite shutdown_commands_app. unfold h2 in Hle2.
      rewrite commands_left_set_stop_event in Hle2. unfold commands_left in *.
      destruct Hcase as [Hz|(pre & -> & Hpre & Hinit & Hinit' & _)].
      * rewrite Hz. destruct (shutdown_initiated (self_ h)) eqn:Hi.
        -- rewrite (Hmono eq_refl) in Hle2. lia.
        -- destruct (shutdown_initiated (self_ r.2)); lia.
      * rewrite Hinit. rewrite Hinit' in Hle2. rewrite shutdown_commands_app, Hpre.
        unfold shutdown_commands at 1. simpl. lia.
    + intros Hok Hone. apply Forall_cons in Hok as [Hokt Hokrest].
      rewrite shutdown_commands_app in Hone.
      destruct Hcase as [Hz|(pre & -> & Hpre & Hinit & Hinit' & Hstop')].
      * destruct (Hlast2 Hokrest ltac:(lia)) as [(pre2 & ->) Hrun].
        split; [|exact Hrun]. exists (evs1 ++ pre2). by rewrite app_assoc.
      * specialize (Hstop' Hokt).
        assert (stop_event h2 = true) as Hs2 by (unfold h2; simpl; by rewrite Hstop').
        rewrite (run_loop_stopped _ _ _ _ Hs2) in Htr2 |- *. simpl in Htr2.
        assert (evs2 = []) as ->.
        { apply (app_inv_head (trace h2)). by rewrite app_nil_r. }
        rewrite app_nil_r. split; [by exists pre|done].
  - exists evs1. simpl. split; [done|]. split.
    + unfold commands_left.
      destruct Hcase as [Hz|(pre & -> & Hpre & Hinit & _)].
      * rewrite Hz. lia.
      * rewrite Hinit, shutdown_commands_app, Hpre. unfold shutdown_commands. simpl. lia.
    + intros _ Hone. split; [|done].
      destruct Hcase as [Hz|(pre & -> & _)]; [lia|by exists pre].
Qed.

(** X3. A whole run of the monitor, whatever it reads over however many
    passes of the loop, executes the shutdown command at most once, and
    not at all on a monitor whose [shutdown_initiated] is already set. *)
Theorem run_at_most_one_shutdown s ticks self :
  (shutdown_commands (trace (run s ticks self).1.2) <= 1)%nat
  /\ (shutdown_initiated self = true ->
      shutdown_commands (trace (run s ticks self).1.2) = 0%nat)
  /\ forall config h waits,
       (shutdown_commands (trace (run_loop ticks config h waits).1.2)
        <= shutdown_commands (trace h) + commands_left h)%nat.
Proof.
  assert (forall config h waits,
            (shutdown_commands (trace (run_loop ticks config h waits).1.2)
             <= shutdown_commands (trace h) + commands_left h)%nat) as Hloop.
  { intros config h waits.
    destruct (run_loop_shape ticks config h waits) as (evs & -> & Hle & _).
    rewrite shutdown_commands_app. lia. }
  split; [|split; [|exact Hloop]].
  - unfold run. destruct (s_load s) as [config|]; [|simpl; unfold shutdown_commands; simpl; lia].
    destruct (s_logging s); [|simpl; unfold shutdown_commands; simpl; lia].
    destruct (new_ShutdownDecider (s_utcnow s) config) as [d|];
      [|simpl; unfold shutdown_commands; simpl; lia].
    etrans; [apply Hloop|]. unfold commands_left, shutdown_commands. simpl.
    destruct (shutdown_initiated self); lia.
  - intros Hinit. unfold run.
    destruct (s_load s) as [config|]; [|done].
    destruct (s_logging s); [|done].
    destruct (new_ShutdownDecider (s_utcnow s) config) as [d|]; [|done].
    match goal with |- shutdown_commands (trace (run_loop _ _ ?h0 _).1.2) = _ =>
      pose proof (Hloop config h0 []) as Hle end.
    unfold commands_left, shutdown_commands in *. simpl in Hle.
    rewrite Hinit in Hle |- *. simpl in Hle. lia.
Qed.

(** X4. When every failure of the shutdown command is one that
    [_trigger_shutdown] catches, the command is the last event of the
    run: after it no key is read and no counts are fetched or observed,
    and the loop does not go on. *)
Theorem run_shutdown_is_last s ticks self pre post :
  Forall tick_ok ticks ->
  trace (run s ticks self).1.2 = pre ++ RunShutdownCommand :: post ->
  post = [] /\ (run s ticks self).1.1 <> StillRunning.
Proof.
  intros Hok. unfold run.
  destruct (s_load s) as [config|]; [|by destruct pre].
  destruct (s_logging s); [|by destruct pre].
  destruct (new_ShutdownDecider (s_utcnow s) config) as [d|]; [|by destruct pre].
  match goal with |- trace (run_loop _ _ ?h0 _).1.2 = _ -> _ =>
    destruct (run_loop_shape ticks config h0 []) as (evs & Htr & Hle & Hlast) end.
  rewrite Htr. simpl. intros ->.
  assert (shutdown_commands (pre ++ RunShutdownCommand :: post)
          = S (shutdown_commands pre + shutdown_commands post)) as Hcount.
  { rewrite shutdown_commands_app. unfold shutdown_commands. simpl. lia. }
  assert (shutdown_commands (pre ++ RunShutdownCommand :: post) = 1%nat) as Hone.
  { unfold commands_left in Hle. simpl in Hle.
    destruct (shutdown_initiated self); lia. }
  destruct (Hlast Hok Hone) as [(pre' & Hpre') Hrun]. split; [|exact Hrun].
  destruct post as [|e post' _] using rev_ind; [done|].
  exfalso. change (pre ++ RunShutdownCommand :: post' ++ [e])
    with (pre ++ (RunShutdownCommand :: post') ++ [e]) in Hpre'.
  rewrite app_assoc in Hpre'. apply app_inj_tail in Hpre' as [_ ->].
  rewrite Hone in Hcount. rewrite shutdown_commands_app in Hcount.
  unfold shutdown_commands at 3 in Hcount. simpl in Hcount. lia.
Qed.

Lemma run_shutdown_is_last_witness :
  (run live_startup [idle_tick; idle_tick] new_Monitor).1.1 <> StillRunning.
Proof.
  apply (run_shutdown_is_last live_startup [idle_tick; idle_tick] new_Monitor
           [GetApiKey "default"; GetPlayerCounts ["survival"%string];
            RegisterObservation {[ "survival"%string := 0 ]}] []).
  - repeat constructor.
  - vm_compute. reflexivity.
Defined.

(** X9. A configuration whose idle delay no [timedelta] can hold
    (more than 1439999999999 minutes) ends [run] with [OverflowError]
    when it is the one read at the start; when it arrives by reload, the
    pass of the loop stores it in the decider and does nothing else: no
    cycle runs, and the decider keeps its state and its previous delay. *)
Theorem run_idle_delay_out_of_range c :
  MAX_DELTA_MINUTES < idle_delay_minutes c ->
  (forall s ticks self,
     s_load s = Returned c -> s_logging s = Returned tt ->
     (run s ticks self).1.1 = Crashed OverflowError
     /\ trace (run s ticks self).1.2 = [])
  /\ (forall t config h d,
        t_load t = Returned c -> t_logging t = Returned tt ->
        decider (self_ h) = Some d ->
        loop_body t config h = (c, with_decider (set_config c d) h)).
Proof.
  intros Hbig. split.
  - intros s ticks self Hload Hlog. unfold run. rewrite Hload, Hlog.
    by rewrite new_ShutdownDecider_overflow.
  - intros t config h d Hload Hlog Hd. unfold loop_body. rewrite Hload, Hlog.
    unfold bind. by rewrite (reconfigure_overflow _ _ d).
Qed.

Lemma run_idle_delay_out_of_range_witness :
  (run {| s_load := Returned overflowing_config; s_logging := Returned tt;
          s_utcnow := 0; s_stop := false |} [idle_tick] new_Monitor).1.1
  = Crashed OverflowError.
Proof.
  destruct (run_idle_delay_out_of_range overflowing_config) as [Hrun _].
  - vm_compute. reflexivity.
  - apply Hrun; reflexivity.
Defined.

Lemma run_loop_waits ticks : forall config h waits,
  Forall (fun n => 5 <= n) waits ->
  Forall (fun n => 5 <= n) (run_loop ticks config h waits).2.
Proof.
  induction ticks as [|t rest IH]; intros config h waits Hw; simpl.
  - by destruct (stop_event h).
  - destruct (stop_event h); [done|].
    assert (Forall (fun n => 5 <= n)
              (waits ++ [Z.max 5 (poll_interval_seconds (loop_body t config h).1)]))
      as Hw' by (apply Forall_app; split; [done|]; repeat constructor; lia).
    destruct (t_wait t); [by apply IH|done].
Qed.

Lemma run_loop_crash ticks : forall config h waits e,
  (run_loop ticks config h waits).1.1 = Crashed e ->
  exists t, In t ticks /\ t_wait t = Raised e.
Proof.
  induction ticks as [|t rest IH]; intros config h waits e; simpl.
  - by destruct (stop_event h).
  - destruct (stop_event h); [done|].
    destruct (t_wait t) as [b|e'] eqn:Hwait.
    + intros Hc. destruct (IH _ _ _ _ Hc) as (t' & Hin & Ht'). exists t'. auto.
    + intros [= <-]. exists t. auto.
Qed.

(** X11. A pass of the loop whose reload and logging succeed leaves the
    decider holding the configuration just loaded, whatever the cycle
    did; when the idle delay of that configuration is in range the decider
    also holds [max(1, idle_delay_minutes)] minutes as its delay, and the
    cycle of this very pass already ran with both. *)
Theorem loop_body_installs_config t (previous : Config) h d c :
  t_load t = Returned c ->
  t_logging t = Returned tt ->
  decider (self_ h) = Some d ->
  (loop_body t previous h).1 = c
  /\ exists d',
       decider (self_ (loop_body t previous h).2) = Some d'
       /\ config d' = c
       /\ (idle_delay_minutes c <= MAX_DELTA_MINUTES ->
           idle_delta d' = Z.max 1 (idle_delay_minutes c) * US_PER_MINUTE
           /\ (loop_body t previous h).2
              = (_poll_once (t_world t) c
                   (with_decider
                      (set_idle_delta (Z.max 1 (idle_delay_minutes c) * US_PER_MINUTE)
                         (set_config c d)) h)).2).
Proof.
  intros Hload Hlog Hd. unfold loop_body. rewrite Hload, Hlog. simpl.
  split; [done|]. unfold bind.
  destruct (Z.le_gt_cases (idle_delay_minutes c) MAX_DELTA_MINUTES) as [Hok|Hbig].
  - rewrite (reconfigure_in_range _ _ d) by done.
    set (d1 := set_idle_delta _ _).
    destruct (poll_once_decider_frame (t_world t) c (with_decider d1 h) d1 eq_refl)
      as (d' & Hd' & Hcfg & Hdelta).
    exists d'. split; [exact Hd'|]. split; [by rewrite Hcfg|]. intros _.
    split; [by rewrite Hdelta|done].
  - rewrite (reconfigure_overflow _ _ d) by (done || lia). simpl.
    exists (set_config c d). split; [done|]. split; [done|]. lia.
Qed.

Lemma loop_body_installs_config_witness :
  exists d',
    decider (self_ (loop_body idle_tick Config_defaults
                      (heap_of (decider_at 0 Config_defaults))).2) = Some d'
    /\ config d' = live_config.
Proof.
  destruct (loop_body_installs_config idle_tick Config_defaults
              (heap_of (decider_at 0 Config_defaults))
              (decider_at 0 Config_defaults) live_config)
    as (_ & d' & Hd' & Hcfg & _); [reflexivity..|].
  exists d'. split; [exact Hd'|exact Hcfg].
Defined.

(** X10. Every wait of the loop is of at least five seconds, whatever
    [poll_interval_seconds] says, and once [run] is past its start nothing
    raised inside a pass ends it: it can only end by an exception when
    [stop_event.wait] itself raises. *)
Theorem run_loop_waits_and_crashes ticks config h :
  Forall (fun n => 5 <= n) (run_loop ticks config h []).2
  /\ forall e,
       (run_loop ticks config h []).1.1 = Crashed e ->
       exists t, In t ticks /\ t_wait t = Raised e.
Proof.
  split; [by apply run_loop_waits|apply run_loop_crash].
Qed.

Lemma update_config_state c (d : ShutdownDecider) :
  state (update_config c d).2 = state d.
Proof.
  unfold update_config. by destruct (timedelta_minutes _).
Qed.

Lemma reconfigure_tracking c h :
  tracking (reconfigure c h).2 = tracking h.
Proof.
  unfold tracking, reconfigure, bind, get_self, put_self, ret, raise. simpl.
  destruct (decider (self_ h)) as [d|] eqn:Hd; simpl; [|by rewrite Hd].
  destruct (update_config c d).1; simpl; by rewrite update_config_state.
Qed.

Lemma loop_body_selects_nothing t config h :
  selects_nothing t ->
  trace (loop_body t config h).2 = trace h
  /\ stop_event (loop_body t config h).2 = stop_event h
  /\ tracking (loop_body t config h).2 = tracking h.
Proof.
  intros Hsel. unfold loop_body.
  destruct (t_load t) as [c|] eqn:Hload; [|done].
  destruct (t_logging t); [|done]. simpl.
  pose proof (reconfigure_effect c h) as (Htr & Hstop & _).
  pose proof (reconfigure_tracking c h) as Htrack.
  unfold bind. destruct (reconfigure c h) as [[[]|e] h1]; simpl in *; [|done].
  by rewrite (poll_once_no_instances _ _ _ (Hsel c Hload)).
Qed.

Lemma run_loop_selects_nothing ticks : forall config h waits,
  Forall selects_nothing ticks ->
  trace (run_loop ticks config h waits).1.2 = trace h
  /\ tracking (run_loop ticks config h waits).1.2 = tracking h.
Proof.
  induction ticks as [|t rest IH]; intros config h waits Hall; simpl.
  - by destruct (stop_event h).
  - destruct (stop_event h); [done|].
    apply Forall_cons in Hall as [Ht Hrest].
    destruct (loop_body_selects_nothing t config h Ht) as (Htr & _ & Htrack).
    destruct (t_wait t) as [b|e]; [|done].
    destruct (IH (loop_body t config h).1
                (set_stop_event (stop_event (loop_body t config h).2 || b)
                   (loop_body t config h).2)
                (waits ++ [Z.max 5 (poll_interval_seconds (loop_body t config h).1)])
                Hrest) as (Htr' & Htrack').
    rewrite Htr', Htrack'. by split.
Qed.

(** X24. As long as every configuration the loop reloads selects no
    instance, the monitor does nothing at all however long it runs: no
    key is read, nothing is fetched or observed, no shutdown is issued,
    and the decider's [last_activity] and latch stay as the start of the
    run left them, maintenance windows or not. *)
Theorem run_without_instances s ticks self :
  Forall selects_nothing ticks ->
  trace (run s ticks self).1.2 = []
  /\ forall config h waits,
       trace (run_loop ticks config h waits).1.2 = trace h
       /\ tracking (run_loop ticks config h waits).1.2 = tracking h.
Proof.
  intros Hall. split.
  - unfold run. destruct (s_load s) as [config|]; [|done].
    destruct (s_logging s); [|done].
    destruct (new_ShutdownDecider (s_utcnow s) config) as [d|]; [|done].
    by rewrite (proj1 (run_loop_selects_nothing ticks _ _ _ Hall)).
  - intros config h waits. by apply run_loop_selects_nothing.
Qed.

Lemma run_without_instances_witness :
  trace (run live_startup [default_tick; default_tick; default_tick] new_Monitor).1.2 = [].
Proof.
  apply (run_without_instances live_startup
           [default_tick; default_tick; default_tick] new_Monitor).
  repeat constructor; intros c [= <-]; reflexivity.
Defined.
End run_loop.

(** ** api_amp.py: the client *)

Section client.
Variable int_of_str : string -> option Z.
Implicit Types (self : AMPClient) (session : request -> reply).
Implicit Types (data : list (string * value)) (names instances : list string).
Implicit Types (results counts : gmap string Z) (name : string).

Lemma request_player_counts self session instances :
  _request self session "POST" PLAYER_COUNTS_ENDPOINT
    (Some (VDict [("instances"%string, VList (List.map VStr instances))]))
  = match session (player_counts_request self instances) with
    | RequestException => Raised AMPAPIError
    | Response status_code _ json =>
        if 400 <=? status_code then Raised AMPAPIError else Returned json
    end.
Proof. reflexivity. Qed.

Lemma request_instances self session :
  _request self session "GET" INSTANCES_ENDPOINT None
  = match session (instances_request self) with
    | RequestException => Raised AMPAPIError
    | Response status_code _ json =>
        if 400 <=? status_code then Raised AMPAPIError else Returned json
    end.
Proof. reflexivity. Qed.

Lemma py_int_failed (v : value) e :
  py_int int_of_str v = Failed e ->
  e = TypeError \/ e = Known ValueError \/ e = Known OverflowError.
Proof.
  destruct v as [| | |[]| | | |]; simpl; try (intros [= <-]; by auto).
  destruct (int_of_str s); intros [= <-]; by auto.
Qed.

(** The loop never raises an [AMPAPIError] of its own. *)
Lemma player_count_raises data name e :
  player_count int_of_str data name = Raised e -> e = OverflowError.
Proof.
  unfold player_count.
  destruct (py_int int_of_str _) as [n|e'] eqn:E; [done|].
  apply py_int_failed in E as [->|[->| ->]]; [done|done|].
  by intros [= <-].
Qed.

Lemma fill_counts_lookup data names : forall results counts,
  fill_counts int_of_str data names results = Returned counts ->
  forall name,
    (name ∈ names ->
     exists n, player_count int_of_str data name = Returned n
               /\ counts !! name = Some n)
    /\ (name ∉ names -> counts !! name = results !! name).
Proof.
  induction names as [|name0 rest IH]; intros results counts Hfill name; simpl in Hfill.
  - injection Hfill as <-. split; [by intros ?%elem_of_nil|done].
  - destruct (player_count int_of_str data name0) as [n0|] eqn:Hpc; [|done].
    destruct (IH _ _ Hfill name) as [Hin Hout]. split.
    + intros Hname. destruct (decide (name ∈ rest)) as [Hrest|Hrest]; [by apply Hin|].
      apply elem_of_cons in Hname as [->|Hname]; [|done].
      exists n0. split; [done|]. rewrite (Hout Hrest). apply lookup_insert_eq.
    + intros Hname. apply not_elem_of_cons in Hname as [Hne Hrest].
      rewrite (Hout Hrest). by apply lookup_insert_ne.
Qed.

Lemma fill_counts_raises data names : forall results e,
  fill_counts int_of_str data names results = Raised e -> e = OverflowError.
Proof.
  induction names as [|name0 rest IH]; intros results e; simpl; [done|].
  destruct (player_count int_of_str data name0) as [n0|e0] eqn:Hpc.
  - apply IH.
  - intros [= <-]. by eapply player_count_raises.
Qed.

(** What [get_player_counts] returns comes from a dictionary the server
    sent. *)
Lemma client_get_player_counts_returned self session instances counts :
  instances <> [] ->
  client_get_player_counts int_of_str self session instances = Returned counts ->
  exists status_code text data,
    session (player_counts_request self instances)
    = Response status_code text (Returned (VDict data))
    /\ status_code < 400
    /\ fill_counts int_of_str data instances ∅ = Returned counts.
Proof.
  intros Hne. unfold client_get_player_counts.
  destruct instances as [|i rest]; [done|]. rewrite request_player_counts.
  destruct (session _) as [|status_code text json]; [done|].
  destruct (400 <=? status_code) eqn:Hst; [done|]. apply Z.leb_gt in Hst.
  destruct json as [[]|]; try done.
  intros Hfill. by exists status_code, text, entries.
Qed.

(** X12. The counts [get_player_counts] returns have exactly the requested
    instances as keys, whatever the server sent: with at least one
    instance requested the mapping is not empty. Without instances it is
    empty and no request is made. *)
Theorem client_get_player_counts_keys self session instances counts :
  client_get_player_counts int_of_str self session instances = Returned counts ->
  (forall name, is_Some (counts !! name) <-> name ∈ instances)
  /\ dom counts = list_to_set instances
  /\ (instances <> [] -> counts <> ∅)
  /\ (instances = [] -> counts = ∅).
Proof.
  intros Hret.
  assert (forall name, is_Some (counts !! name) <-> name ∈ instances) as Hkeys.
  { destruct instances as [|i rest] eqn:Hi.
    - injection Hret as <-. intros name. rewrite lookup_empty.
      split; [by intros [? ?]|by intros ?%elem_of_nil].
    - rewrite <- Hi in *.
      destruct (client_get_player_counts_returned self session instances counts)
        as (st & text & data & _ & _ & Hfill); [by rewrite Hi|done|].
      intros name. destruct (fill_counts_lookup _ _ _ _ Hfill name) as [Hin Hout].
      split.
      + intros Hsome. destruct (decide (name ∈ instances)) as [|Hnot]; [done|].
        rewrite (Hout Hnot), lookup_empty in Hsome. by destruct Hsome.
      + intros Hname. destruct (Hin Hname) as (n & _ & ->). by eexists. }
  split; [exact Hkeys|]. split; [|split].
  - apply set_eq. intros name. rewrite elem_of_dom, Hkeys. by rewrite elem_of_list_to_set.
  - intros Hne ->. destruct instances as [|i rest]; [done|].
    assert (is_Some ((∅ : gmap string Z) !! i)) as [? Hsome]
      by (apply Hkeys; by left).
    by rewrite lookup_empty in Hsome.
  - intros ->. by injection Hret as <-.
Qed.


(** X14. A transport failure or a status of 400 and above makes
    [get_player_counts] raise [AMPAPIError], and so does a reply whose
    JSON is not a dictionary; an exception of [json()] passes through as
    it is. Whatever else it raises is the [OverflowError] of an infinite
    count. *)
Theorem client_get_player_counts_failures self session name rest :
  let instances := name :: rest in
  let result := client_get_player_counts int_of_str self session instances in
  (session (player_counts_request self instances) = RequestException ->
   result = Raised AMPAPIError)
  /\ (forall status_code text json,
        session (player_counts_request self instances)
        = Response status_code text json ->
        400 <= status_code -> result = Raised AMPAPIError)
  /\ (forall status_code text v,
        session (player_counts_request self instances)
        = Response status_code text (Returned v) ->
        status_code < 400 -> ~ is_dict v -> result = Raised AMPAPIError)
  /\ (forall status_code text e,
        session (player_counts_request self instances)
        = Response status_code text (Raised e) ->
        status_code < 400 -> result = Raised e)
  /\ (forall e,
        result = Raised e ->
        e = AMPAPIError \/ e = OverflowError
        \/ exists status_code text,
             session (player_counts_request self instances)
             = Response status_code text (Raised e)).
Proof.
  cbv zeta. unfold client_get_player_counts. rewrite request_player_counts.
  repeat split.
  - by intros ->.
  - intros st text json -> Hst. apply Z.leb_le in Hst. by rewrite Hst.
  - intros st text v -> Hst Hv. apply Z.leb_gt in Hst. rewrite Hst.
    destruct v; try done. exfalso. apply Hv. by eexists.
  - intros st text e -> Hst. apply Z.leb_gt in Hst. by rewrite Hst.
  - intros e. destruct (session _) as [|st text json]; [intros [= <-]; by left|].
    destruct (400 <=? st); [intros [= <-]; by left|].
    destruct json as [v|e'].
    + destruct v; try (intros [= <-]; by left).
      intros Hfill. right. left. by eapply fill_counts_raises.
    + intros [= <-]. right. right. by eexists _, _.
Qed.

(** X15. An infinite count for any requested instance makes
    [get_player_counts] raise [OverflowError]: [int] of an infinite float
    is not among the exceptions the loop turns into a zero, and it is not
    an [AMPAPIError]. *)
Theorem client_get_player_counts_infinite
    self session instances name status_code text data negative :
  session (player_counts_request self instances)
  = Response status_code text (Returned (VDict data)) ->
  status_code < 400 ->
  name ∈ instances ->
  dict_get name data = Some (VFloat (FInf negative)) ->
  client_get_player_counts int_of_str self session instances = Raised OverflowError.
Proof.
  intros Hreply Hst Hname Hinf.
  assert (player_count int_of_str data name = Raised OverflowError) as Hpc.
  { unfold player_count, dict_get_default. by rewrite Hinf. }
  assert (client_get_player_counts int_of_str self session instances
          = fill_counts int_of_str data instances ∅) as ->.
  { unfold client_get_player_counts.
    destruct instances as [|i rest]; [by apply elem_of_nil in Hname|].
    rewrite request_player_counts, Hreply. apply Z.leb_gt in Hst. by rewrite Hst. }
  destruct (fill_counts int_of_str data instances ∅) as [counts|e] eqn:Hfill.
  - destruct (fill_counts_lookup _ _ _ _ Hfill name) as [Hin _].
    destruct (Hin Hname) as (n & Hn & _). congruence.
  - f_equal. by eapply fill_counts_raises.
Qed.

(** X25. A reply that is an empty dictionary reads as nobody online: every
    requested instance gets the count 0, so for a decider whose thresholds
    are not negative the observation has no instance above threshold. *)
Theorem client_empty_reply_reads_idle
    self session instances status_code text (d : ShutdownDecider) :
  instances <> [] ->
  session (player_counts_request self instances)
  = Response status_code text (Returned (VDict [])) ->
  status_code < 400 ->
  exists counts,
    client_get_player_counts int_of_str self session instances = Returned counts
    /\ (forall name, name ∈ instances -> counts !! name = Some 0)
    /\ counts <> ∅
    /\ ((forall name, 0 <= _threshold_for d name) -> all_idle d counts).
Proof.
  intros Hne Hreply Hst.
  assert (client_get_player_counts int_of_str self session instances
          = fill_counts int_of_str [] instances ∅) as Heq.
  { unfold client_get_player_counts. destruct instances as [|i rest]; [done|].
    rewrite request_player_counts, Hreply. apply Z.leb_gt in Hst. by rewrite Hst. }
  assert (forall names results,
            exists counts, fill_counts int_of_str [] names results = Returned counts)
    as Htotal.
  { induction names as [|n names IH]; intros results; simpl; [by eexists|].
    apply IH. }
  destruct (Htotal instances ∅) as [counts Hfill].
  exists counts. rewrite Heq. split; [exact Hfill|].
  assert (forall name, name ∈ instances -> counts !! name = Some 0) as Hzero.
  { intros name Hname. destruct (fill_counts_lookup _ _ _ _ Hfill name) as [Hin _].
    destruct (Hin Hname) as (n & Hn & ->). by injection Hn as <-. }
  split; [exact Hzero|]. split.
  - intros ->. destruct instances as [|i rest]; [done|].
    specialize (Hzero i ltac:(by left)). by rewrite lookup_empty in Hzero.
  - intros Hthr. unfold all_idle. apply map_Forall_lookup. intros name count Hlook.
    destruct (decide (name ∈ instances)) as [Hin|Hnot].
    + rewrite (Hzero name Hin) in Hlook. injection Hlook as <-. apply Hthr.
    + destruct (fill_counts_lookup _ _ _ _ Hfill name) as [_ Hout].
      rewrite (Hout Hnot), lookup_empty in Hlook. done.
Qed.
End client.

Lemma client_get_player_counts_keys_witness :
  dom (<[ "valheim"%string := 0 ]>
         (<[ "satisfactory"%string := 1 ]> ({[ "mc"%string := 2 ]} : gmap string Z)))
  = list_to_set ["mc"%string; "satisfactory"%string; "valheim"%string].
Proof.
  apply (client_get_player_counts_keys no_text sample_client sample_session).
  vm_compute. reflexivity.
Defined.


Lemma client_empty_reply_reads_idle_witness :
  exists counts,
    client_get_player_counts no_text sample_client empty_session ["survival"%string]
    = Returned counts
    /\ counts !! "survival"%string = Some 0.
Proof.
  destruct (client_empty_reply_reads_idle no_text sample_client empty_session
              ["survival"%string] 200 "" (decider_at 0 live_config))
    as (counts & Hret & Hzero & _); [done|reflexivity|reflexivity|].
  exists counts. split; [exact Hret|]. apply Hzero. set_solver.
Defined.

Lemma client_get_player_counts_infinite_witness :
  client_get_player_counts no_text sample_client infinite_session ["mc"%string]
  = Raised OverflowError.
Proof.
  apply (client_get_player_counts_infinite no_text sample_client infinite_session
           ["mc"%string] "mc"%string 200 ""
           [("mc"%string, VFloat (FInf false))] false).
  - reflexivity.
  - reflexivity.
  - set_solver.
  - reflexivity.
Defined.

Section listing.
Implicit Types (self : AMPClient) (session : request -> reply) (s : string).

Lemma list_instances_returned self session l :
  list_instances self session = Returned l <->
  exists status_code text payload items,
    session (instances_request self) = Response status_code text (Returned payload)
    /\ status_code < 400
    /\ listed_instances payload = Some items
    /\ l = omap normalise_instance items.
Proof.
  unfold list_instances. rewrite request_instances. split.
  - destruct (session _) as [|st text json]; [done|].
    destruct (400 <=? st) eqn:Hst; [done|]. apply Z.leb_gt in Hst.
    destruct json as [payload|]; [|done].
    intros Hl. exists st, text, payload.
    destruct payload as [| | | | |items|entries|]; simpl in Hl; try done.
    + exists items. by injection Hl as <-.
    + unfold dict_get_default in Hl. simpl.
      destruct (dict_get "instances" entries) as [[| | | | |items| |]|]; try done.
      exists items. by injection Hl as <-.
  - intros (st & text & payload & items & -> & Hst & Hlisted & ->).
    apply Z.leb_gt in Hst. rewrite Hst.
    destruct payload as [| | | | |items'|entries|]; simpl in Hlisted; try done.
    + by injection Hlisted as ->.
    + unfold dict_get_default.
      destruct (dict_get "instances" entries) as [[| | | | |items'| |]|]; try done.
      by injection Hlisted as ->.
Qed.

Lemma omap_length_le {A B : Type} (f : A -> option B) (l : list A) :
  (length (omap f l) <= length l)%nat.
Proof.
  induction l as [|x l IH]; simpl; [done|].
  change (list_omap A B f l) with (omap f l).
  destruct (f x); simpl; lia.
Qed.

Lemma normalise_instance_dict item v :
  normalise_instance item = Some v -> is_dict v.
Proof.
  destruct item; simpl; try done; intros [= <-]; by eexists.
Qed.

(** X16. What [list_instances] returns are dictionaries only, in the order
    of the reply and no more than it listed: every dictionary of the reply
    is kept as it is, every string becomes a dictionary with that string
    as [name] and as [id], and every other entry is dropped. The list is
    the JSON payload itself or, when the payload is a dictionary, its
    entry [instances]. *)
Theorem list_instances_normalised self session l :
  list_instances self session = Returned l ->
  exists status_code text payload items,
    session (instances_request self) = Response status_code text (Returned payload)
    /\ listed_instances payload = Some items
    /\ Forall is_dict l
    /\ (length l <= length items)%nat
    /\ (forall entries, VDict entries ∈ items -> VDict entries ∈ l)
    /\ (forall s, VStr s ∈ items ->
                  VDict [("name"%string, VStr s); ("id"%string, VStr s)] ∈ l)
    /\ (forall v, v ∈ l ->
                  v ∈ items
                  \/ exists s, VStr s ∈ items
                               /\ v = VDict [("name"%string, VStr s); ("id"%string, VStr s)]).
Proof.
  intros Hl. apply list_instances_returned in Hl
    as (st & text & payload & items & Hreply & _ & Hlisted & ->).
  exists st, text, payload, items. split; [done|]. split; [done|].
  split; [|split; [|split; [|split]]].
  - apply Forall_forall. intros v Hv. apply list_elem_of_omap in Hv as (item & _ & Hn).
    by eapply normalise_instance_dict.
  - apply omap_length_le.
  - intros entries Hin. apply list_elem_of_omap. by exists (VDict entries).
  - intros s Hin. apply list_elem_of_omap. by exists (VStr s).
  - intros v Hv. apply list_elem_of_omap in Hv as (item & Hin & Hn).
    destruct item; simpl in Hn; try done; injection Hn as <-; [right|left; done].
    by eexists.
Qed.

Lemma list_instances_normalised_witness :
  VDict [("name"%string, VStr "mc"); ("id"%string, VStr "mc")]
  ∈ omap normalise_instance
      [VStr "mc";
       VDict [("id"%string, VStr "satisfactory"); ("name"%string, VStr "Satisfactory")];
       VInt 7].
Proof.
  destruct (list_instances_normalised sample_client listing_session
              (omap normalise_instance
                 [VStr "mc";
                  VDict [("id"%string, VStr "satisfactory");
                         ("name"%string, VStr "Satisfactory")];
                  VInt 7]))
    as (st & text & payload & items & Hreply & Hlisted & _ & _ & _ & Hstr & _).
  - reflexivity.
  - apply Hstr. injection Hreply as _ _ <-. injection Hlisted as <-. set_solver.
Defined.

(** X17. [test_connection] returns [True] exactly when the server answers
    below status 400 with JSON that is a list or a dictionary whose
    [instances] is a list; it returns [False] for a transport failure, a
    status of 400 and above and any other well-formed JSON; an exception
    of [json()] is not caught. *)
Theorem test_connection_cases self session :
  (test_connection self session = Returned true <->
   exists status_code text payload items,
     session (instances_request self) = Response status_code text (Returned payload)
     /\ status_code < 400
     /\ listed_instances payload = Some items)
  /\ (session (instances_request self) = RequestException ->
      test_connection self session = Returned false)
  /\ (forall status_code text json,
        session (instances_request self) = Response status_code text json ->
        400 <= status_code -> test_connection self session = Returned false)
  /\ (forall status_code text payload,
        session (instances_request self) = Response status_code text (Returned payload) ->
        status_code < 400 -> listed_instances payload = None ->
        test_connection self session = Returned false)
  /\ (forall status_code text e,
        session (instances_request self) = Response status_code text (Raised e) ->
        status_code < 400 -> e <> AMPAPIError ->
        test_connection self session = Raised e).
Proof.
  split; [|split; [|split; [|split]]].
  - unfold test_connection. split.
    + destruct (list_instances self session) as [l|e] eqn:Hl; [|by destruct e].
      intros _. apply list_instances_returned in Hl
        as (st & text & payload & items & Hreply & Hst & Hlisted & _).
      by exists st, text, payload, items.
    + intros (st & text & payload & items & Hreply & Hst & Hlisted).
      assert (list_instances self session = Returned (omap normalise_instance items)) as ->
        by (apply list_instances_returned; by exists st, text, payload, items).
      done.
  - intros Hreply. unfold test_connection, list_instances.
    by rewrite request_instances, Hreply.
  - intros st text json Hreply Hst. unfold test_connection, list_instances.
    rewrite request_instances, Hreply. apply Z.leb_le in Hst. by rewrite Hst.
  - intros st text payload Hreply Hst Hlisted. unfold test_connection, list_instances.
    rewrite request_instances, Hreply. apply Z.leb_gt in Hst. rewrite Hst.
    destruct payload as [| | | | |items|entries|]; simpl in *; try done.
    unfold dict_get_default.
    by destruct (dict_get "instances" entries) as [[| | | | |items| |]|].
  - intros st text e Hreply Hst He. unfold test_connection, list_instances.
    rewrite request_instances, Hreply. apply Z.leb_gt in Hst. rewrite Hst.
    by destruct e.
Qed.

Lemma rstrip_slash_cons a s :
  rstrip_slash (String a s)
  = match rstrip_slash s with
    | EmptyString => if Ascii.eqb a "/" then EmptyString else String a EmptyString
    | String c r => String a (String c r)
    end.
Proof. reflexivity. Qed.

Lemma rstrip_slash_nonempty s c r :
  rstrip_slash s = String c r -> rstrip_slash (String c r) = String c r.
Proof.
  revert c r. induction s as [|a s IH]; intros c r; [done|].
  rewrite rstrip_slash_cons.
  destruct (rstrip_slash s) as [|c' r'] eqn:E.
  - destruct (Ascii.eqb a "/") eqn:Ea; [done|]. intros [= <- <-].
    rewrite rstrip_slash_cons. simpl. by rewrite Ea.
  - intros [= <- <-]. rewrite rstrip_slash_cons. by rewrite (IH c' r' eq_refl).
Qed.

Lemma rstrip_slash_idempotent s : rstrip_slash (rstrip_slash s) = rstrip_slash s.
Proof.
  destruct (rstrip_slash s) as [|c r] eqn:E; [done|].
  by eapply rstrip_slash_nonempty.
Qed.

Lemma rstrip_slash_slashes s :
  exists k, s = String.append (rstrip_slash s) (slashes k).
Proof.
  induction s as [|a s [k IH]].
  - by exists 0%nat.
  - rewrite rstrip_slash_cons. destruct (rstrip_slash s) as [|c r] eqn:E.
    + change (s = slashes k) in IH. destruct (Ascii.eqb a "/") eqn:Ea.
      * apply Ascii.eqb_eq in Ea as ->. exists (S k).
        change (String "/" s = String "/" (slashes k)). by f_equal.
      * exists k. change (String a s = String a (slashes k)). by f_equal.
    + exists k.
      change (String a s = String a (String.append (String c r) (slashes k))).
      by f_equal.
Qed.

Lemma append_slash_nonempty p : String.append p "/" <> EmptyString.
Proof. by destruct p. Qed.

Lemma rstrip_slash_no_slash s : ~ ends_with_slash (rstrip_slash s).
Proof.
  induction s as [|a s IH]; intros [p Hp]; simpl in Hp.
  - by destruct p.
  - destruct (rstrip_slash s) as [|c r] eqn:E.
    + destruct (Ascii.eqb a "/") eqn:Ea; [by destruct p|].
      destruct p as [|b [|b' p']]; simpl in Hp; [|done|done].
      injection Hp as ->. by rewrite Ascii.eqb_refl in Ea.
    + destruct p as [|b p']; simpl in Hp; [done|].
      injection Hp as -> Hp. apply IH. by exists p'.
Qed.

(** X18. The constructor of the client refuses an empty base URL with
    [ValueError] and otherwise stores the URL without its trailing
    slashes: what it stores does not end in a slash, differs from the
    argument by trailing slashes only, and stripping it again changes
    nothing. A base URL made of slashes only is stored as the empty
    string. The [Authorization] header is set exactly when a non-empty
    key is given. *)
Theorem new_client_base_url url key verify :
  (new_client url key verify = Raised ValueError <-> url = EmptyString)
  /\ forall self,
       new_client url key verify = Returned self ->
       base_url self = rstrip_slash url
       /\ ~ ends_with_slash (base_url self)
       /\ (exists k, url = String.append (base_url self) (slashes k))
       /\ rstrip_slash (base_url self) = base_url self
       /\ (authorization self = None <-> key = None \/ key = Some EmptyString)
       /\ (forall k, url = slashes k -> base_url self = EmptyString).
Proof.
  unfold new_client. split.
  - destruct url; by split.
  - intros self. destruct url as [|a u] eqn:Hurl; [done|]. rewrite <- Hurl.
    intros [= <-]. simpl. split; [done|].
    split; [apply rstrip_slash_no_slash|].
    split; [apply rstrip_slash_slashes|].
    split; [apply rstrip_slash_idempotent|]. split.
    + unfold authorization. simpl. destruct key as [[|c k]|]; simpl; split; try done.
      * by auto.
      * by intros [|[=]].
      * by auto.
    + intros k ->. clear Hurl. induction k as [|k IH]; [done|]. simpl. by rewrite IH.
Qed.

(** The cycle's view of the constructor agrees with the constructor. *)
Lemma new_AMPClient_new_client c key (h : heap) :
  new_AMPClient c h
  = match new_client (amp_base_url c) key (verify_ssl c) with
    | Returned _ => (Returned tt, h)
    | Raised e => (Raised e, h)
    end.
Proof. unfold new_AMPClient, new_client. by destruct (amp_base_url c). Qed.
End listing.

(** ** config.py: windows and configurations read and written *)

Section config_files.
Variable int_of_str : string -> option Z.
Variable repr_ : value -> string.
Implicit Types (data : list (string * value)) (w : MaintenanceWindow) (c : Config).
Implicit Types (d : string).

Lemma valid_day_lower d : d ∈ MAINTENANCE_DAY_VALUES -> lower d = d.
Proof.
  unfold MAINTENANCE_DAY_VALUES. rewrite elem_of_list_to_set.
  intros Hd. repeat (apply elem_of_cons in Hd as [->|Hd]; [reflexivity|]).
  by apply elem_of_nil in Hd.
Qed.

Lemma is_valid_day_true d : is_valid_day d = true <-> d ∈ MAINTENANCE_DAY_VALUES.
Proof. unfold is_valid_day. apply bool_decide_eq_true. Qed.

Lemma filter_valid_all (l : list string) :
  Forall (fun d => d ∈ MAINTENANCE_DAY_VALUES) l -> List.filter is_valid_day l = l.
Proof.
  induction 1 as [|d l Hd _ IH]; [done|]. simpl.
  apply is_valid_day_true in Hd. by rewrite Hd, IH.
Qed.

Lemma filter_valid_Forall (l : list string) :
  Forall (fun d => d ∈ MAINTENANCE_DAY_VALUES) (List.filter is_valid_day l).
Proof.
  apply Forall_forall. intros d Hd. apply list_elem_of_In, filter_In in Hd as [_ Hd].
  by apply is_valid_day_true.
Qed.

Lemma map_lower_valid (l : list string) :
  Forall (fun d => d ∈ MAINTENANCE_DAY_VALUES) l -> List.map lower l = l.
Proof.
  induction 1 as [|d l Hd _ IH]; [done|]. simpl. by rewrite (valid_day_lower _ Hd), IH.
Qed.

Lemma star_valid : "*"%string ∈ MAINTENANCE_DAY_VALUES.
Proof.
  unfold MAINTENANCE_DAY_VALUES. apply elem_of_list_to_set. set_solver.
Qed.

Lemma sun_valid : "sun"%string ∈ MAINTENANCE_DAY_VALUES.
Proof.
  unfold MAINTENANCE_DAY_VALUES. apply elem_of_list_to_set. set_solver.
Qed.

Lemma from_dict_clean data : clean_window (MaintenanceWindow_from_dict repr_ data).
Proof.
  unfold clean_window, MaintenanceWindow_from_dict. simpl.
  set (normalised := List.map _ _).
  pose proof (filter_valid_Forall normalised) as Hall.
  destruct (List.filter is_valid_day normalised) as [|d l] eqn:E.
  - split; [done|]. apply Forall_cons. split; [apply star_valid|by apply Forall_nil].
  - by split.
Qed.

Lemma clean_window_days w :
  clean_window w -> window_days w = list_to_set (days w).
Proof.
  intros [Hne Hall]. unfold window_days.
  destruct (days w) as [|d l] eqn:E; [done|]. by rewrite (map_lower_valid _ Hall).
Qed.

Lemma to_dict_from_dict_clean w :
  clean_window w ->
  MaintenanceWindow_from_dict repr_ (MaintenanceWindow_to_dict w) = w.
Proof.
  intros [Hne Hall]. unfold MaintenanceWindow_from_dict, MaintenanceWindow_to_dict.
  cbn [dict_get_default dict_get String.eqb Ascii.eqb Bool.eqb py_iter py_str].
  rewrite List.map_map. cbn [py_str].
  assert (List.map (fun x => lower (lower x)) (days w) = days w) as ->.
  { rewrite <- (List.map_map lower lower). by rewrite !(map_lower_valid _ Hall). }
  rewrite (filter_valid_all _ Hall).
  destruct w as [ds st en]. simpl in *. by destruct ds.
Qed.

(** X19. Whatever the dictionary holds, the window [from_dict] builds has
    at least one day and only days of [MAINTENANCE_DAY_VALUES], all in
    lower case; so the monitor's set of days for it is just its [days],
    and [normalised_days] changes nothing. *)
Theorem MaintenanceWindow_from_dict_days data :
  let w := MaintenanceWindow_from_dict repr_ data in
  days w <> []
  /\ Forall (fun d => d ∈ MAINTENANCE_DAY_VALUES) (days w)
  /\ normalised_days w = days w
  /\ window_days w = list_to_set (days w).
Proof.
  cbv zeta. destruct (from_dict_clean data) as [Hne Hall].
  split; [done|]. split; [done|]. split.
  - by apply map_lower_valid.
  - by apply clean_window_days.
Qed.

(** X20. Writing a window with [to_dict] and reading it back with
    [from_dict] gives the same window whenever its days are not empty and
    all of [MAINTENANCE_DAY_VALUES]; in particular a window that was read
    from a dictionary survives being written and read again. *)
Theorem MaintenanceWindow_round_trip :
  (forall w,
     days w <> [] ->
     Forall (fun d => d ∈ MAINTENANCE_DAY_VALUES) (days w) ->
     MaintenanceWindow_from_dict repr_ (MaintenanceWindow_to_dict w) = w)
  /\ (forall data,
        MaintenanceWindow_from_dict repr_
          (MaintenanceWindow_to_dict (MaintenanceWindow_from_dict repr_ data))
        = MaintenanceWindow_from_dict repr_ data).
Proof.
  split.
  - intros w Hne Hall. by apply to_dict_from_dict_clean.
  - intros data. apply to_dict_from_dict_clean, from_dict_clean.
Qed.

Lemma from_dict_unknown_days data :
  Forall (fun day => lower (py_str repr_ day) ∉ MAINTENANCE_DAY_VALUES) (written_days data) ->
  days (MaintenanceWindow_from_dict repr_ data) = ["*"%string].
Proof.
  unfold written_days, MaintenanceWindow_from_dict. simpl.
  destruct (py_iter _) as [items|]; [|done]. intros Hall.
  assert (List.filter is_valid_day
            (List.map (fun day => lower (py_str repr_ day)) items) = []) as ->; [|done].
  induction Hall as [|day items Hday _ IH]; [done|]. simpl.
  destruct (is_valid_day _) eqn:E; [|done].
  by apply is_valid_day_true in E.
Qed.

(** X21. A window written without days, or with day names none of which
    is one of [MAINTENANCE_DAY_VALUES] once in lower case, is read as the
    window of every day: the monitor is inside it on any day of the week
    whenever the time of day matches. *)
Theorem unknown_days_every_day data c wd t :
  Forall (fun day => lower (py_str repr_ day) ∉ MAINTENANCE_DAY_VALUES) (written_days data) ->
  let w := MaintenanceWindow_from_dict repr_ data in
  days w = ["*"%string]
  /\ _in_maintenance_window {| wday := wd; clock := t |} (with_windows [w] c)
     = _time_in_window t (start w) (end_ w).
Proof.
  intros Hall w. pose proof (from_dict_unknown_days data Hall) as Hdays.
  split; [done|]. unfold _in_maintenance_window, with_windows. simpl.
  assert (window_days w = {[ "*"%string ]}) as ->.
  { unfold window_days. fold w in Hdays. rewrite Hdays. simpl. set_solver. }
  rewrite (bool_decide_eq_true_2 ("*"%string ∈ ({[ "*"%string ]} : gset string)))
    by set_solver.
  simpl. by destruct (_time_in_window t _ _).
Qed.

Lemma attempt_all_map_got {A B C : Type}
    (f : B -> attempt C) (h : A -> B) (g : A -> C) (l : list A) :
  (forall x, f (h x) = Got (g x)) -> attempt_all f (List.map h l) = Got (List.map g l).
Proof.
  intros Hf. induction l as [|x l IH]; [done|]. simpl. by rewrite Hf, IH.
Qed.

Lemma fold_insert_list_to_map (l : list (string * Z)) : forall acc : gmap string Z,
  NoDup l.*1 ->
  fold_left (fun m kv => <[kv.1 := kv.2]> m) l acc = list_to_map l ∪ acc.
Proof.
  induction l as [|[k v] l IH]; intros acc Hnd.
  - simpl. by rewrite (left_id_L ∅ (∪)).
  - rewrite fmap_cons in Hnd. apply NoDup_cons in Hnd as [Hk Hnd].
    cbn [fold_left fst snd]. rewrite (IH _ Hnd), list_to_map_cons.
    rewrite <- insert_union_l. symmetry. apply insert_union_r.
    by apply not_elem_of_list_to_map_1.
Qed.

Lemma thresholds_round_trip (m : gmap string Z) :
  thresholds_of int_of_str
    (VDict (List.map (fun kv => (kv.1, VInt kv.2)) (map_to_list m))) = Got m.
Proof.
  unfold thresholds_of.
  rewrite (attempt_all_map_got _ _ (fun kv : string * Z => (kv.1, kv.2))); [|done].
  cbn [and_then].
  assert (List.map (fun x : string * Z => (x.1, x.2)) (map_to_list m) = map_to_list m) as ->.
  { induction (map_to_list m) as [|[k v] l IH]; [done|]. simpl. by rewrite IH. }
  rewrite fold_insert_list_to_map by apply NoDup_fst_map_to_list.
  by rewrite list_to_map_to_list, (right_id_L ∅ (∪)).
Qed.

Lemma omap_is_VDict_windows (ws : list MaintenanceWindow) :
  omap is_VDict (List.map (fun w => VDict (MaintenanceWindow_to_dict w)) ws)
  = List.map MaintenanceWindow_to_dict ws.
Proof. induction ws as [|w ws IH]; [done|]. simpl. f_equal. exact IH. Qed.

Lemma Config_from_to_dict meta kr c :
  Config_from_dict int_of_str repr_ (Config_to_dict meta kr c)
  = Got (with_windows
           (List.map (fun w => MaintenanceWindow_from_dict repr_ (MaintenanceWindow_to_dict w))
              (maintenance_windows c)) c).
Proof.
  unfold Config_from_dict, Config_to_dict, with_windows.
  cbn [dict_get_default dict_get String.eqb Ascii.eqb Bool.eqb app
       iterate py_iter and_then py_int py_str py_bool].
  rewrite thresholds_round_trip. cbn [and_then].
  rewrite omap_is_VDict_windows, !List.map_map. cbn [py_str].
  by rewrite List.map_id.
Qed.

(** X22. Reading back with [Config.from_dict] what [Config.to_dict] wrote
    gives the configuration again, with or without the [api_key_present]
    entry, provided each of its windows has at least one day and only days
    of [MAINTENANCE_DAY_VALUES]; other windows come back normalised as
    [MaintenanceWindow.from_dict] does. [DEFAULT_CONFIG] is read back as
    it is. *)
Theorem Config_round_trip meta kr c :
  Config_from_dict int_of_str repr_ (Config_to_dict meta kr c)
  = Got (with_windows
           (List.map (fun w => MaintenanceWindow_from_dict repr_ (MaintenanceWindow_to_dict w))
              (maintenance_windows c)) c)
  /\ (Forall clean_window (maintenance_windows c) ->
      Config_from_dict int_of_str repr_ (Config_to_dict meta kr c) = Got c)
  /\ Config_from_dict int_of_str repr_ (Config_to_dict meta kr DEFAULT_CONFIG)
     = Got DEFAULT_CONFIG.
Proof.
  assert (forall c', Forall clean_window (maintenance_windows c') ->
            Config_from_dict int_of_str repr_ (Config_to_dict meta kr c') = Got c') as Hclean.
  { intros c' Hall. rewrite Config_from_to_dict. f_equal.
    assert (List.map (fun w => MaintenanceWindow_from_dict repr_ (MaintenanceWindow_to_dict w))
              (maintenance_windows c') = maintenance_windows c') as ->.
    { induction Hall as [|w ws Hw _ IH]; [done|]. simpl.
      by rewrite (to_dict_from_dict_clean _ Hw), IH. }
    by destruct c'. }
  split; [apply Config_from_to_dict|]. split; [apply Hclean|].
  apply Hclean. simpl. apply Forall_cons. split; [|by apply Forall_nil].
  split; [done|]. simpl. apply Forall_cons. split; [apply sun_valid|by apply Forall_nil].
Qed.

Lemma iterate_failed v e : iterate v = Failed e -> e = TypeError.
Proof. unfold iterate. destruct (py_iter v); by intros [= <-]. Qed.

Lemma thresholds_of_failed v e :
  thresholds_of int_of_str v = Failed e ->
  e = TypeError \/ e = AttributeError \/ e = Known ValueError \/ e = Known OverflowError.
Proof.
  destruct v as [| | | | | |entries|]; simpl; try (intros [= <-]; by auto).
  induction entries as [|[k v] entries IH]; simpl; [done|].
  destruct (py_int int_of_str v) as [n|e'] eqn:E; simpl.
  - destruct (attempt_all _ entries) as [items|e'']; simpl in *; [done|].
    intros [= <-]. by apply IH.
  - intros [= <-]. apply py_int_failed in E as [->|[->| ->]]; by auto.
Qed.

(** X23. [Config.from_dict] fails only with [TypeError], [AttributeError],
    [ValueError] or [OverflowError], the exceptions of the numeric fields
    and of the three collections; when it returns, every window of the
    configuration has at least one day and only days of
    [MAINTENANCE_DAY_VALUES], and there are no more windows than the file
    listed. An empty dictionary gives the defaults of the dataclass. *)
Theorem Config_from_dict_result data :
  (forall e,
     Config_from_dict int_of_str repr_ data = Failed e ->
     e = TypeError \/ e = AttributeError
     \/ e = Known ValueError \/ e = Known OverflowError)
  /\ (forall c,
        Config_from_dict int_of_str repr_ data = Got c ->
        Forall clean_window (maintenance_windows c)
        /\ exists entries,
             py_iter (dict_get_default "maintenance_windows" (VList []) data)
             = Some entries
             /\ (length (maintenance_windows c) <= length entries)%nat)
  /\ Config_from_dict int_of_str repr_ [] = Got Config_defaults.
Proof.
  split; [|split; [|reflexivity]].
  - intros e. unfold Config_from_dict.
    destruct (iterate _) as [entries|e1] eqn:E1; simpl;
      [|intros [= <-]; apply iterate_failed in E1; by auto].
    destruct (py_int int_of_str (dict_get_default "poll_interval_seconds" _ _))
      as [poll|e2] eqn:E2; simpl;
      [|intros [= <-]; apply py_int_failed in E2 as [->|[->| ->]]; by auto].
    destruct (py_int int_of_str (dict_get_default "idle_delay_minutes" _ _))
      as [idle|e3] eqn:E3; simpl;
      [|intros [= <-]; apply py_int_failed in E3 as [->|[->| ->]]; by auto].
    destruct (py_int int_of_str (dict_get_default "global_player_threshold" _ _))
      as [glob|e4] eqn:E4; simpl;
      [|intros [= <-]; apply py_int_failed in E4 as [->|[->| ->]]; by auto].
    destruct (thresholds_of _ _) as [per|e5] eqn:E5; simpl;
      [|intros [= <-]; by apply thresholds_of_failed in E5].
    destruct (iterate (dict_get_default "selected_instances" _ _))
      as [sel|e6] eqn:E6; simpl; [done|].
    intros [= <-]. apply iterate_failed in E6. by auto.
  - intros c. unfold Config_from_dict.
    destruct (iterate _) as [entries|e1] eqn:E1; simpl; [|done].
    destruct (py_int _ _) as [poll|]; simpl; [|done].
    destruct (py_int _ _) as [idle|]; simpl; [|done].
    destruct (py_int _ _) as [glob|]; simpl; [|done].
    destruct (thresholds_of _ _) as [per|]; simpl; [|done].
    destruct (iterate (dict_get_default "selected_instances" _ _)) as [sel|]; simpl; [|done].
    intros [= <-]. simpl. split.
    + apply Forall_forall. intros w Hw. apply list_elem_of_In, in_map_iff in Hw as (d & <- & _).
      apply from_dict_clean.
    + unfold iterate in E1. destruct (py_iter _) as [entries'|]; [|done].
      injection E1 as ->. exists entries. split; [done|].
      rewrite length_map. apply omap_length_le.
Qed.
End config_files.

Lemma unknown_days_every_day_witness :
  _in_maintenance_window {| wday := Thu; clock := at_time 2 0 |}
    (with_windows [MaintenanceWindow_from_dict no_repr monday_window] Config_defaults)
  = _time_in_window (at_time 2 0) "01:00" "05:00".
Proof.
  apply (unknown_days_every_day no_repr monday_window Config_defaults Thu (at_time 2 0)).
  repeat constructor. vm_compute. set_solver.
Defined.

(** ** The embedding on the scenarios of the tests *)

Section scenarios.

(** [test_shutdown_decider_triggers_after_idle]: a delay of one minute,
    [last_activity] two minutes back; [True], then [False]. *)
Example decider_triggers_after_idle :
  observe_all [(2 * US_PER_MINUTE, {[ "instance"%string := 0 ]});
               (2 * US_PER_MINUTE, {[ "instance"%string := 0 ]})]
              (decider_at 0 (make_config 1 0 ∅))
  = ([true; false],
     set_state {| last_activity := 0; shutdown_triggered := true |}
               (decider_at 0 (make_config 1 0 ∅))).
Proof. vm_compute. reflexivity. Qed.

(** [test_shutdown_decider_resets_on_activity]: a delay of five minutes;
    one player after four minutes is activity, nobody six minutes after
    [last_activity] fires. *)
Example decider_resets_on_activity :
  (register_observation (4 * US_PER_MINUTE) {[ "instance"%string := 1 ]}
     (decider_at 0 (make_config 5 0 ∅))).1 = false
  /\ (register_observation (6 * US_PER_MINUTE) {[ "instance"%string := 0 ]}
        (decider_at 0 (make_config 5 0 ∅))).1 = true.
Proof. vm_compute. split; reflexivity. Qed.

(** Four minutes of idling are not five. *)
Example decider_not_yet_idle :
  register_observation (4 * US_PER_MINUTE) {[ "a"%string := 0 ]}
    (decider_at 0 (make_config 5 0 ∅))
  = (false, decider_at 0 (make_config 5 0 ∅)).
Proof. vm_compute. reflexivity. Qed.

Example strptime_two_digits : strptime_HM "22:00" = Some (at_time 22 0).
Proof. vm_compute. reflexivity. Qed.

(** The pattern takes one digit where there is no second one. *)
Example strptime_one_digit : strptime_HM "2:5" = Some (at_time 2 5).
Proof. vm_compute. reflexivity. Qed.

Example strptime_hour_24 : strptime_HM "24:00" = None.
Proof. vm_compute. reflexivity. Qed.

(** The minute group stops after the 6 and a character remains. *)
Example strptime_minute_60 : strptime_HM "22:60" = None.
Proof. vm_compute. reflexivity. Qed.

Example strptime_trailing_blank : strptime_HM "07:30 " = None.
Proof. vm_compute. reflexivity. Qed.

Example strptime_no_colon : strptime_HM "2200" = None.
Proof. vm_compute. reflexivity. Qed.

Example lower_mixed_case : lower "MoN" = "mon"%string.
Proof. vm_compute. reflexivity. Qed.

(** A window on Sundays only does not match on a Monday, and matches on a
    Sunday whatever the case of the day name. *)
Example sunday_window :
  let c := with_windows [ {| days := ["SUN"%string]; start := "01:00"; end_ := "05:00" |} ]
             Config_defaults in
  _in_maintenance_window {| wday := Mon; clock := at_time 2 0 |} c = false
  /\ _in_maintenance_window {| wday := Sun; clock := at_time 2 0 |} c = true
  /\ _in_maintenance_window {| wday := Sun; clock := at_time 5 0 |} c = true
  /\ _in_maintenance_window
       {| wday := Sun;
          clock := {| hour := 5; minute := 0; second := 0; microsecond := 1 |} |} c = false.
Proof. vm_compute. repeat split. Qed.

(** A malformed bound: the window never matches. *)
Example malformed_window :
  _time_in_window (at_time 12 0) "00:00" "25:00" = false
  /\ _time_in_window (at_time 12 0) "noon" "23:00" = false.
Proof. vm_compute. split; reflexivity. Qed.

(** An idle cycle outside every window: the key is read, the counts are
    fetched and observed, the command runs once and the loop is told to
    stop. *)
Example idle_cycle_shuts_down :
  let h := heap_of (decider_at 0 live_config) in
  let r := _poll_once idle_world live_config h in
  r.1 = Returned tt
  /\ trace r.2 = [GetApiKey "default"; GetPlayerCounts ["survival"%string];
                  RegisterObservation {[ "survival"%string := 0 ]}; RunShutdownCommand]
  /\ stop_event r.2 = true
  /\ shutdown_initiated (self_ r.2) = true.
Proof. vm_compute. repeat split. Qed.

(** The default configuration has no base URL: a cycle that gets past the
    windows raises [ValueError] out of the client's constructor. *)
Example no_base_url_raises :
  let c := with_instances ["survival"%string] Config_defaults in
  (_poll_once idle_world c (heap_of (decider_at 0 c))).1 = Raised ValueError.
Proof. vm_compute. reflexivity. Qed.

(** An unreachable API: the cycle ends without an observation. *)
Example api_unavailable_skips :
  let w := {| w_now := w_now idle_world; w_utcnow := w_utcnow idle_world;
              w_player_counts := Raised AMPAPIError; w_shutdown := Returned tt |} in
  let h := heap_of (decider_at 0 live_config) in
  (_poll_once w live_config h).1 = Returned tt
  /\ self_ (_poll_once w live_config h).2 = self_ h
  /\ trace (_poll_once w live_config h).2
     = [GetApiKey "default"; GetPlayerCounts ["survival"%string]].
Proof. vm_compute. repeat split. Qed.
End scenarios.
